(** * Urbanite: ultrasonic parking aid — FSM composition, distance
    computation, median window and colour interpolation.

  Shallow embedding of
    - common/src/fsm_ultrasound.c   (ultrasound FSM, [do_set_distance]),
    - common/src/fsm_display.c      (display FSM, colour interpolation),
    - common/src/fsm_urbanite.c     (master FSM),
    - port/stm32f4/src/stm32f4_ultrasound.c (hardware mirror record).

  C integers are [Z] with the wrap-around of every operation written
  out; the C structs are records; pointers to the leaf FSMs become
  components of the one system state the master FSM acts on. *)

From Stdlib Require Import ZArith Lia Bool.
From stdpp Require Import base list sorting.

Local Open Scope Z_scope.

(** ** Machine integers *)

Module Word.

Definition wrap8  (x : Z) : Z := x mod 2 ^ 8.
Definition wrap16 (x : Z) : Z := x mod 2 ^ 16.
Definition wrap32 (x : Z) : Z := x mod 2 ^ 32.
Definition wrap64 (x : Z) : Z := x mod 2 ^ 64.

(** Conversion of a 32-bit pattern to [int] / [int32_t]
    (two's complement, as on the Cortex-M4 target). *)
Definition to_int32 (x : Z) : Z :=
  let u := wrap32 x in if u <? 2 ^ 31 then u else u - 2 ^ 32.

Definition is_u8  (x : Z) : Prop := 0 <= x < 2 ^ 8.
Definition is_u32 (x : Z) : Prop := 0 <= x < 2 ^ 32.

End Word.
Import Word.

(** ** Port layer: the hardware mirror of one ultrasound transceiver
  (stm32f4_ultrasound.c).  The GPIO/pin descriptors are left out; the
  enable bits of the three timers and the two lines written by the
  port functions are kept as booleans. *)

Module Port.

Record stm32f4_ultrasound_hw_t := mk_hw {
  echo_received  : bool;
  trigger_end    : bool;
  trigger_ready  : bool;
  echo_end_tick  : Z;
  echo_init_tick : Z;
  echo_overflows : Z;
  trigger_line   : bool;   (* GPIO output of the trigger pin *)
  echo_line      : bool;   (* GPIO output register bit of the echo pin *)
  tim2_cen       : bool;   (* echo capture timer running *)
  tim3_cen       : bool;   (* trigger timer running *)
  tim5_cen       : bool;   (* new-measurement (cycle) timer running *)
  tim5_irq       : bool    (* NVIC_EnableIRQ(TIM5_IRQn) done *)
}.

Definition port_ultrasound_stop_trigger_timer (hw : stm32f4_ultrasound_hw_t) :=
  mk_hw (echo_received hw) (trigger_end hw) (trigger_ready hw)
        (echo_end_tick hw) (echo_init_tick hw) (echo_overflows hw)
        false (echo_line hw) (tim2_cen hw) false (tim5_cen hw) (tim5_irq hw).

Definition port_ultrasound_stop_echo_timer (hw : stm32f4_ultrasound_hw_t) :=
  mk_hw (echo_received hw) (trigger_end hw) (trigger_ready hw)
        (echo_end_tick hw) (echo_init_tick hw) (echo_overflows hw)
        (trigger_line hw) false false (tim3_cen hw) (tim5_cen hw) (tim5_irq hw).

Definition port_ultrasound_reset_echo_ticks (hw : stm32f4_ultrasound_hw_t) :=
  mk_hw false (trigger_end hw) (trigger_ready hw)
        0 0 0
        (trigger_line hw) (echo_line hw) (tim2_cen hw) (tim3_cen hw)
        (tim5_cen hw) (tim5_irq hw).

Definition port_ultrasound_start_new_measurement_timer (hw : stm32f4_ultrasound_hw_t) :=
  mk_hw (echo_received hw) (trigger_end hw) (trigger_ready hw)
        (echo_end_tick hw) (echo_init_tick hw) (echo_overflows hw)
        (trigger_line hw) (echo_line hw) (tim2_cen hw) (tim3_cen hw)
        true true.

Definition port_ultrasound_stop_new_measurement_timer (hw : stm32f4_ultrasound_hw_t) :=
  mk_hw (echo_received hw) (trigger_end hw) (trigger_ready hw)
        (echo_end_tick hw) (echo_init_tick hw) (echo_overflows hw)
        (trigger_line hw) (echo_line hw) (tim2_cen hw) (tim3_cen hw)
        false (tim5_irq hw).

Definition port_ultrasound_stop_ultrasound (hw : stm32f4_ultrasound_hw_t) :=
  port_ultrasound_reset_echo_ticks
    (port_ultrasound_stop_new_measurement_timer
       (port_ultrasound_stop_echo_timer
          (port_ultrasound_stop_trigger_timer hw))).

Definition port_ultrasound_set_trigger_ready (hw : stm32f4_ultrasound_hw_t) (b : bool) :=
  mk_hw (echo_received hw) (trigger_end hw) b
        (echo_end_tick hw) (echo_init_tick hw) (echo_overflows hw)
        (trigger_line hw) (echo_line hw) (tim2_cen hw) (tim3_cen hw)
        (tim5_cen hw) (tim5_irq hw).

Definition port_ultrasound_get_trigger_ready := trigger_ready.
Definition port_ultrasound_get_echo_end_tick := echo_end_tick.
Definition port_ultrasound_get_echo_init_tick := echo_init_tick.
Definition port_ultrasound_get_echo_overflows := echo_overflows.
Definition port_ultrasound_get_echo_received := echo_received.

(** What the capture ISR (TIM2_IRQHandler) leaves in the mirror once
    both edges of one echo have been seen: the two ticks, the overflow
    count and [echo_received = true]. *)
Record capture := mk_capture {
  cap_init : Z; cap_end : Z; cap_overflows : Z
}.

Definition echo_captured (c : capture) (hw : stm32f4_ultrasound_hw_t) :=
  mk_hw true (trigger_end hw) (trigger_ready hw)
        (cap_end c) (cap_init c) (cap_overflows c)
        (trigger_line hw) (echo_line hw) (tim2_cen hw) (tim3_cen hw)
        (tim5_cen hw) (tim5_irq hw).

End Port.
Import Port.

(** ** Ultrasound FSM (fsm_ultrasound.c) *)

Module Ultrasound.

Inductive FSM_ULTRASOUND :=
| WAIT_START | TRIGGER_START | WAIT_ECHO_START | WAIT_ECHO_END | SET_DISTANCE.

(** Modelled from the spec: fsm_ultrasound.h, which defines this macro,
    is not among the sources; the spec fixes the median window at N = 5. *)
Definition FSM_ULTRASOUND_NUM_MEASUREMENTS : Z := 5.

Record fsm_ultrasound_t := mk_us {
  current_state   : FSM_ULTRASOUND;   (* f.current_state *)
  distance_cm     : Z;
  status          : bool;
  new_measurement : bool;
  distance_arr    : list Z;     (* uint32_t [FSM_ULTRASOUND_NUM_MEASUREMENTS] *)
  distance_idx    : Z
}.

(** [_compare]: the unsigned difference, returned as [int]. *)
Definition _compare (a b : Z) : Z := to_int32 (wrap32 (a - b)).

(** libc [qsort] driven by a comparator: [a] is placed before [b] when
    the comparator does not return a positive value.  Insertion sort is
    used as the sorting procedure. *)
Fixpoint qsort_place (cmp : Z -> Z -> Z) (x : Z) (l : list Z) : list Z :=
  match l with
  | [] => [x]
  | y :: l' => if cmp x y <=? 0 then x :: y :: l' else y :: qsort_place cmp x l'
  end.

Fixpoint qsort (cmp : Z -> Z -> Z) (l : list Z) : list Z :=
  match l with
  | [] => []
  | x :: l' => qsort_place cmp x (qsort cmp l')
  end.

(** Array read [a[i]]. *)
Definition aget (a : list Z) (i : Z) : Z := nth (Z.to_nat i) a 0.

(** First half of [do_set_distance]: elapsed ticks of the capture. *)
Definition ticks_elapsed (init_tick end_tick overflows : Z) : Z :=
  let '(ticks, overflows') :=
    if init_tick <=? end_tick
    then (wrap32 (end_tick - init_tick), overflows)
    else (wrap32 (wrap32 (65536 - init_tick) + end_tick),
          if 0 <? overflows then wrap32 (overflows - 1) else overflows) in
  wrap32 (ticks + wrap32 (overflows' * 65536)).

(** [(uint32_t)(((uint64_t)ticks_elapsed * 10) / 583)] *)
Definition raw_distance (init_tick end_tick overflows : Z) : Z :=
  wrap32 (wrap64 (ticks_elapsed init_tick end_tick overflows * 10) / 583).

Definition median_of_sorted (a : list Z) : Z :=
  if FSM_ULTRASOUND_NUM_MEASUREMENTS mod 2 =? 0
  then
    let mid := FSM_ULTRASOUND_NUM_MEASUREMENTS / 2 in
    wrap32 (aget a (mid - 1) + aget a mid) / 2
  else aget a (FSM_ULTRASOUND_NUM_MEASUREMENTS / 2).

(** [do_set_distance].  The array write is stdpp's list insert: inside
    the array it is the C assignment; outside it the list is left as it
    is, where the C code would write past the array.  [distance_idx]
    never leaves [0, N) (lemma [capture_step_inv]), so that case does
    not arise. *)
Definition do_set_distance
    (st : stm32f4_ultrasound_hw_t * fsm_ultrasound_t)
    : stm32f4_ultrasound_hw_t * fsm_ultrasound_t :=
  let '(hw, p_fsm) := st in
  let end_tick  := port_ultrasound_get_echo_end_tick hw in
  let init_tick := port_ultrasound_get_echo_init_tick hw in
  let overflows := port_ultrasound_get_echo_overflows hw in
  let distance  := raw_distance init_tick end_tick overflows in
  let arr := <[Z.to_nat (distance_idx p_fsm) := distance]> (distance_arr p_fsm) in
  let idx := wrap32 (distance_idx p_fsm + 1) in
  let p_fsm' :=
    if FSM_ULTRASOUND_NUM_MEASUREMENTS <=? idx
    then
      let sorted := qsort _compare arr in
      mk_us (current_state p_fsm) (median_of_sorted sorted) (status p_fsm)
            true sorted 0
    else
      mk_us (current_state p_fsm) (distance_cm p_fsm) (status p_fsm)
            (new_measurement p_fsm) arr idx in
  (port_ultrasound_reset_echo_ticks (port_ultrasound_stop_echo_timer hw),
   p_fsm').

Definition fsm_ultrasound_get_distance (p_fsm : fsm_ultrasound_t)
    : Z * fsm_ultrasound_t :=
  (distance_cm p_fsm,
   mk_us (current_state p_fsm) (distance_cm p_fsm) (status p_fsm)
         false (distance_arr p_fsm) (distance_idx p_fsm)).

Definition fsm_ultrasound_stop
    (st : stm32f4_ultrasound_hw_t * fsm_ultrasound_t) :=
  let '(hw, p_fsm) := st in
  (port_ultrasound_stop_ultrasound hw,
   mk_us (current_state p_fsm) (distance_cm p_fsm) false
         (new_measurement p_fsm) (distance_arr p_fsm) (distance_idx p_fsm)).

Definition fsm_ultrasound_start
    (st : stm32f4_ultrasound_hw_t * fsm_ultrasound_t) :=
  let '(hw, p_fsm) := st in
  (port_ultrasound_start_new_measurement_timer
     (port_ultrasound_set_trigger_ready
        (port_ultrasound_reset_echo_ticks hw) true),
   mk_us (current_state p_fsm) 0 true
         (new_measurement p_fsm) (distance_arr p_fsm) 0).

Definition fsm_ultrasound_get_new_measurement_ready := new_measurement.

Definition fsm_ultrasound_check_activity (p_fsm : fsm_ultrasound_t) : bool :=
  false.

(** One successful echo capture as the ultrasound FSM sees it: the ISR
    has filled the mirror, [check_echo_received] holds and the row
    WAIT_ECHO_END -> SET_DISTANCE runs [do_set_distance]. *)
Definition capture_step
    (st : stm32f4_ultrasound_hw_t * fsm_ultrasound_t) (c : capture) :=
  do_set_distance (echo_captured c (fst st), snd st).

Definition feed (st : stm32f4_ultrasound_hw_t * fsm_ultrasound_t)
    (cs : list capture) :=
  foldl capture_step st cs.

Definition raw_of (c : capture) : Z :=
  raw_distance (cap_init c) (cap_end c) (cap_overflows c).

End Ultrasound.

(** ** Display FSM and colour interpolation (fsm_display.c) *)

Module Display.

Inductive FSM_DISPLAY_SYSTEM := WAIT_DISPLAY | SET_DISPLAY.

Definition DANGER_MIN_CM     : Z := 0.
Definition WARNING_MIN_CM    : Z := 25.
Definition NO_PROBLEM_MIN_CM : Z := 50.
Definition INFO_MIN_CM       : Z := 150.
Definition OK_MIN_CM         : Z := 175.
Definition OK_MAX_CM         : Z := 200.

(** [rgb_color_t]: three [uint8_t] channels. *)
Record rgb_color_t := mk_rgb { r : Z; g : Z; b : Z }.

Definition rgb_valid (c : rgb_color_t) : Prop :=
  is_u8 (r c) /\ is_u8 (g c) /\ is_u8 (b c).

(** The colour macros of port_display.h.  That header is not among the
    sources and the spec names the colours without giving their
    channel values, so the table is a parameter of the model. *)
Record colour_table := mk_colours {
  COLOR_RED       : rgb_color_t;
  COLOR_YELLOW    : rgb_color_t;
  COLOR_GREEN     : rgb_color_t;
  COLOR_TURQUOISE : rgb_color_t;
  COLOR_BLUE      : rgb_color_t;
  COLOR_OFF       : rgb_color_t
}.

Definition colours_valid (k : colour_table) : Prop :=
  rgb_valid (COLOR_RED k) /\ rgb_valid (COLOR_YELLOW k) /\
  rgb_valid (COLOR_GREEN k) /\ rgb_valid (COLOR_TURQUOISE k) /\
  rgb_valid (COLOR_BLUE k) /\ rgb_valid (COLOR_OFF k).

(** One channel of [_interpolate_color]: the two [uint16_t] factors are
    promoted to [int], the quotient is C's truncating division and the
    result is stored in a [uint8_t]. *)
Definition interpolate_channel (c1 c2 t : Z) : Z :=
  wrap8 (Z.quot (wrap16 (255 - t) * c1 + wrap16 t * c2) 255).

Definition _interpolate_color (colour_1 colour_2 : rgb_color_t) (t : Z)
    : rgb_color_t :=
  mk_rgb (interpolate_channel (r colour_1) (r colour_2) t)
         (interpolate_channel (g colour_1) (g colour_2) t)
         (interpolate_channel (b colour_1) (b colour_2) t).

(** [uint8_t t = ((uint8_t)(distance_cm - lo) * 255) / (hi - lo);] *)
Definition range_t (distance_cm lo hi : Z) : Z :=
  wrap8 (Z.quot (wrap8 (distance_cm - lo) * 255) (hi - lo)).

Definition _compute_display_levels (k : colour_table) (distance_cm : Z)
    : rgb_color_t :=
  if (DANGER_MIN_CM <=? distance_cm) && (distance_cm <=? WARNING_MIN_CM) then
    _interpolate_color (COLOR_RED k) (COLOR_YELLOW k)
      (range_t distance_cm DANGER_MIN_CM WARNING_MIN_CM)
  else if (WARNING_MIN_CM <? distance_cm) && (distance_cm <=? NO_PROBLEM_MIN_CM) then
    _interpolate_color (COLOR_YELLOW k) (COLOR_GREEN k)
      (range_t distance_cm WARNING_MIN_CM NO_PROBLEM_MIN_CM)
  else if (NO_PROBLEM_MIN_CM <? distance_cm) && (distance_cm <=? INFO_MIN_CM) then
    _interpolate_color (COLOR_GREEN k) (COLOR_TURQUOISE k)
      (range_t distance_cm NO_PROBLEM_MIN_CM INFO_MIN_CM)
  else if (INFO_MIN_CM <? distance_cm) && (distance_cm <=? OK_MIN_CM) then
    _interpolate_color (COLOR_TURQUOISE k) (COLOR_BLUE k)
      (range_t distance_cm INFO_MIN_CM OK_MIN_CM)
  else if (OK_MIN_CM <? distance_cm) && (distance_cm <=? OK_MAX_CM) then
    COLOR_BLUE k
  else
    COLOR_OFF k.

Record fsm_display_t := mk_disp {
  current_state : FSM_DISPLAY_SYSTEM;   (* f.current_state *)
  distance_cm   : Z;                    (* int32_t *)
  new_color     : bool;
  status        : bool;
  idle          : bool
}.

(** The [uint32_t] argument is stored in the [int32_t] field. *)
Definition fsm_display_set_distance (p_fsm : fsm_display_t) (d : Z) :=
  mk_disp (current_state p_fsm) (to_int32 d) true (status p_fsm) (idle p_fsm).

Definition fsm_display_get_status := status.

Definition fsm_display_set_status (p_fsm : fsm_display_t) (pause : bool) :=
  mk_disp (current_state p_fsm) (distance_cm p_fsm) (new_color p_fsm)
          pause (idle p_fsm).

Definition fsm_display_check_activity (p_fsm : fsm_display_t) : bool :=
  status p_fsm && negb (idle p_fsm).

End Display.

(** ** Button FSM: the part the master FSM consumes *)

Module Button.

(** fsm_button.h *)
Inductive FSM_BUTTON_STATE :=
| BUTTON_RELEASED | BUTTON_PRESSED_WAIT | BUTTON_PRESSED | BUTTON_RELEASED_WAIT.

Record fsm_button_t := mk_button {
  current_state : FSM_BUTTON_STATE;   (* f.current_state *)
  duration      : Z                   (* uint32_t, ms of the last press *)
}.

Definition is_released (s : FSM_BUTTON_STATE) : bool :=
  match s with BUTTON_RELEASED => true | _ => false end.

(** Modelled from the spec: fsm_button.c is not among the sources (only
    its header is).  The spec: the button exposes [duration_ms] of the
    most recent press. *)
Definition fsm_button_get_duration := duration.

(** Modelled from the spec: fsm_button.c is missing;
    [reset_duration()] sets the duration back to zero. *)
Definition fsm_button_reset_duration (p_fsm : fsm_button_t) :=
  mk_button (current_state p_fsm) 0.

(** Modelled from the spec: fsm_button.c is missing;
    [check_activity()] returns true whenever [state <> RELEASED]. *)
Definition fsm_button_check_activity (p_fsm : fsm_button_t) : bool :=
  negb (is_released (current_state p_fsm)).

End Button.

(** ** Generic FSM runtime *)

Module Fsm.

Section Runtime.
Context {Sys St : Type} `{EqDecision St}.
Variable get_state : Sys -> St.
Variable set_state : Sys -> St -> Sys.

(** One row of a transition table ([fsm_trans_t]):
    [{orig_state, in, dest_state, out}], [out = NULL] being [None]. *)
Record fsm_trans_t := mk_trans {
  orig_state : St;
  guard      : Sys -> bool;
  dest_state : St;
  action     : option (Sys -> Sys)
}.

Definition run_action (a : option (Sys -> Sys)) (s : Sys) : Sys :=
  match a with Some f => f s | None => s end.

(** Modelled from the spec: fsm.c is not among the sources.  The spec:
    on [fire], the table is scanned top to bottom; the first row with
    [from_state == current] and [guard() == true] wins; its action
    (if present) runs and [current_state <- to_state]; when no row
    matches the FSM keeps its state. *)
Fixpoint fsm_fire (table : list fsm_trans_t) (s : Sys) : Sys :=
  match table with
  | [] => s
  | row :: rest =>
      if bool_decide (get_state s = orig_state row) && guard row s
      then set_state (run_action (action row) s) (dest_state row)
      else fsm_fire rest s
  end.
End Runtime.

Arguments mk_trans {Sys St} _ _ _ _.
Arguments orig_state {Sys St} _.
Arguments guard {Sys St} _ _.
Arguments dest_state {Sys St} _.
Arguments action {Sys St} _.

End Fsm.

(** ** Urbanite master FSM (fsm_urbanite.c) *)

Module Urbanite.

Inductive FSM_URBANITE :=
| OFF | MEASURE | SLEEP_WHILE_OFF | SLEEP_WHILE_ON | EMERGENCY.

#[global] Instance FSM_URBANITE_eq_dec : EqDecision FSM_URBANITE.
Proof. solve_decision. Defined.

(** [struct fsm_urbanite_t].  The three pointers are the leaf FSMs
    themselves; [ultrasound_hw] is the port record
    [ultrasounds_arr[PORT_REAR_PARKING_SENSOR_ID]] that the ultrasound
    start/stop calls write. *)
Record fsm_urbanite_t := mk_urbanite {
  current_state         : FSM_URBANITE;   (* f.current_state *)
  p_fsm_button          : Button.fsm_button_t;
  on_off_press_time_ms  : Z;
  pause_display_time_ms : Z;
  emergency_time_ms     : Z;
  is_paused             : bool;
  emergency_aux         : bool;
  emergency             : bool;
  p_fsm_ultrasound_rear : Ultrasound.fsm_ultrasound_t;
  p_fsm_display_rear    : Display.fsm_display_t;
  ultrasound_hw         : stm32f4_ultrasound_hw_t
}.

Definition set_state (p : fsm_urbanite_t) (s : FSM_URBANITE) :=
  mk_urbanite s (p_fsm_button p) (on_off_press_time_ms p)
    (pause_display_time_ms p) (emergency_time_ms p) (is_paused p)
    (emergency_aux p) (emergency p) (p_fsm_ultrasound_rear p)
    (p_fsm_display_rear p) (ultrasound_hw p).

Definition with_button (p : fsm_urbanite_t) (bt : Button.fsm_button_t) :=
  mk_urbanite (current_state p) bt (on_off_press_time_ms p)
    (pause_display_time_ms p) (emergency_time_ms p) (is_paused p)
    (emergency_aux p) (emergency p) (p_fsm_ultrasound_rear p)
    (p_fsm_display_rear p) (ultrasound_hw p).

Definition with_ultrasound (p : fsm_urbanite_t)
    (x : stm32f4_ultrasound_hw_t * Ultrasound.fsm_ultrasound_t) :=
  mk_urbanite (current_state p) (p_fsm_button p) (on_off_press_time_ms p)
    (pause_display_time_ms p) (emergency_time_ms p) (is_paused p)
    (emergency_aux p) (emergency p) (snd x)
    (p_fsm_display_rear p) (fst x).

Definition with_display (p : fsm_urbanite_t) (d : Display.fsm_display_t) :=
  mk_urbanite (current_state p) (p_fsm_button p) (on_off_press_time_ms p)
    (pause_display_time_ms p) (emergency_time_ms p) (is_paused p)
    (emergency_aux p) (emergency p) (p_fsm_ultrasound_rear p)
    d (ultrasound_hw p).

Definition with_is_paused (p : fsm_urbanite_t) (v : bool) :=
  mk_urbanite (current_state p) (p_fsm_button p) (on_off_press_time_ms p)
    (pause_display_time_ms p) (emergency_time_ms p) v
    (emergency_aux p) (emergency p) (p_fsm_ultrasound_rear p)
    (p_fsm_display_rear p) (ultrasound_hw p).

Definition with_emergency_aux (p : fsm_urbanite_t) (v : bool) :=
  mk_urbanite (current_state p) (p_fsm_button p) (on_off_press_time_ms p)
    (pause_display_time_ms p) (emergency_time_ms p) (is_paused p)
    v (emergency p) (p_fsm_ultrasound_rear p)
    (p_fsm_display_rear p) (ultrasound_hw p).

Definition with_emergency (p : fsm_urbanite_t) (v : bool) :=
  mk_urbanite (current_state p) (p_fsm_button p) (on_off_press_time_ms p)
    (pause_display_time_ms p) (emergency_time_ms p) (is_paused p)
    (emergency_aux p) v (p_fsm_ultrasound_rear p)
    (p_fsm_display_rear p) (ultrasound_hw p).

Definition ultrasound_of (p : fsm_urbanite_t) :=
  (ultrasound_hw p, p_fsm_ultrasound_rear p).

(** *** Guards *)

Definition check_on (p_fsm : fsm_urbanite_t) : bool :=
  let duration := Button.fsm_button_get_duration (p_fsm_button p_fsm) in
  (0 <? duration) && (on_off_press_time_ms p_fsm <? duration).

Definition check_off (p_fsm : fsm_urbanite_t) : bool :=
  let duration := Button.fsm_button_get_duration (p_fsm_button p_fsm) in
  (0 <? duration) && (on_off_press_time_ms p_fsm <? duration)
    && (duration <? emergency_time_ms p_fsm).

Definition check_emergency_on (p_fsm : fsm_urbanite_t) : bool :=
  let duration := Button.fsm_button_get_duration (p_fsm_button p_fsm) in
  (0 <? duration) && (emergency_time_ms p_fsm <? duration).

Definition check_emergency_continue (p_fsm : fsm_urbanite_t) : bool :=
  emergency p_fsm.

Definition check_emergency_off (p_fsm : fsm_urbanite_t) : bool :=
  let duration := Button.fsm_button_get_duration (p_fsm_button p_fsm) in
  (0 <? duration) && (emergency_time_ms p_fsm <? duration).

Definition check_new_measure (p_fsm : fsm_urbanite_t) : bool :=
  Ultrasound.fsm_ultrasound_get_new_measurement_ready
    (p_fsm_ultrasound_rear p_fsm).

Definition check_pause_display (p_fsm : fsm_urbanite_t) : bool :=
  let duration := Button.fsm_button_get_duration (p_fsm_button p_fsm) in
  (0 <? duration) && (duration <? on_off_press_time_ms p_fsm)
    && (pause_display_time_ms p_fsm <=? duration).

Definition check_activity (p_fsm : fsm_urbanite_t) : bool :=
  Ultrasound.fsm_ultrasound_check_activity (p_fsm_ultrasound_rear p_fsm)
  || Display.fsm_display_check_activity (p_fsm_display_rear p_fsm)
  || Button.fsm_button_check_activity (p_fsm_button p_fsm).

Definition check_no_activity (p_fsm : fsm_urbanite_t) : bool :=
  negb (check_activity p_fsm).

Definition check_activity_in_measure (p_fsm : fsm_urbanite_t) : bool :=
  check_new_measure p_fsm.

(** *** Actions ([printf] traces are not part of the state) *)

Definition reset_button (p_fsm : fsm_urbanite_t) :=
  with_button p_fsm (Button.fsm_button_reset_duration (p_fsm_button p_fsm)).

Definition set_display_status (p_fsm : fsm_urbanite_t) (v : bool) :=
  with_display p_fsm
    (Display.fsm_display_set_status (p_fsm_display_rear p_fsm) v).

Definition set_display_distance (p_fsm : fsm_urbanite_t) (d : Z) :=
  with_display p_fsm
    (Display.fsm_display_set_distance (p_fsm_display_rear p_fsm) d).

Definition do_start_up_measure (p_fsm : fsm_urbanite_t) :=
  let p1 := reset_button p_fsm in
  let p2 := with_ultrasound p1 (Ultrasound.fsm_ultrasound_start (ultrasound_of p1)) in
  set_display_status p2 true.

Definition do_stop_urbanite (p_fsm : fsm_urbanite_t) :=
  let p1 := reset_button p_fsm in
  let p2 := with_ultrasound p1 (Ultrasound.fsm_ultrasound_stop (ultrasound_of p1)) in
  let p3 := set_display_status p2 false in
  with_is_paused p3 false.

Definition do_pause_display (p_fsm : fsm_urbanite_t) :=
  let p1 := reset_button p_fsm in
  let p2 := with_is_paused p1 (negb (is_paused p1)) in
  set_display_status p2 (negb (is_paused p2)).

Definition do_display_distance (p_fsm : fsm_urbanite_t) :=
  let '(distance_cm, us) :=
    Ultrasound.fsm_ultrasound_get_distance (p_fsm_ultrasound_rear p_fsm) in
  let p1 := with_ultrasound p_fsm (ultrasound_hw p_fsm, us) in
  if is_paused p1 then
    if distance_cm <? Z.quot Display.WARNING_MIN_CM 2 then
      set_display_status (set_display_distance p1 distance_cm) true
    else
      set_display_status p1 false
  else
    set_display_distance p1 distance_cm.

Definition do_start_emergency (p_fsm : fsm_urbanite_t) :=
  let p1 := reset_button p_fsm in
  let p2 := set_display_status p1 true in
  let p3 := with_ultrasound p2 (Ultrasound.fsm_ultrasound_stop (ultrasound_of p2)) in
  with_emergency (with_emergency_aux p3 true) true.

Definition do_stop_emergency (p_fsm : fsm_urbanite_t) :=
  let p1 := reset_button p_fsm in
  let p2 := with_ultrasound p1 (Ultrasound.fsm_ultrasound_start (ultrasound_of p1)) in
  let p3 := if is_paused p2 then set_display_status p2 false else p2 in
  with_emergency (with_emergency_aux p3 false) false.

(** [port_system_delay_ms(1000)] only lets time pass. *)
Definition do_continue_emergency (p_fsm : fsm_urbanite_t) :=
  if emergency_aux p_fsm
  then with_emergency_aux (set_display_distance p_fsm 0) false
  else with_emergency_aux (set_display_distance p_fsm 500) true.

(** [port_system_sleep()] halts the CPU until the next interrupt; it
    leaves the FSM records as they are. *)
Definition do_sleep_off (p_fsm : fsm_urbanite_t) := p_fsm.
Definition do_sleep_while_measure (p_fsm : fsm_urbanite_t) := p_fsm.
Definition do_sleep_while_off (p_fsm : fsm_urbanite_t) := p_fsm.
Definition do_sleep_while_on (p_fsm : fsm_urbanite_t) := p_fsm.

(** *** Transition table, in the order of the source *)

Definition fsm_trans_urbanite
    : list (@Fsm.fsm_trans_t fsm_urbanite_t FSM_URBANITE) :=
  [ Fsm.mk_trans OFF check_no_activity SLEEP_WHILE_OFF (Some do_sleep_off);
    Fsm.mk_trans SLEEP_WHILE_OFF check_activity OFF None;
    Fsm.mk_trans SLEEP_WHILE_OFF check_no_activity SLEEP_WHILE_OFF (Some do_sleep_while_off);

    Fsm.mk_trans OFF check_on MEASURE (Some do_start_up_measure);
    Fsm.mk_trans MEASURE check_pause_display MEASURE (Some do_pause_display);
    Fsm.mk_trans MEASURE check_new_measure MEASURE (Some do_display_distance);

    Fsm.mk_trans MEASURE check_no_activity SLEEP_WHILE_ON (Some do_sleep_while_measure);
    Fsm.mk_trans SLEEP_WHILE_ON check_activity_in_measure MEASURE None;
    Fsm.mk_trans SLEEP_WHILE_ON check_no_activity SLEEP_WHILE_ON (Some do_sleep_while_on);

    Fsm.mk_trans MEASURE check_emergency_on EMERGENCY (Some do_start_emergency);
    Fsm.mk_trans EMERGENCY check_emergency_off MEASURE (Some do_stop_emergency);
    Fsm.mk_trans EMERGENCY check_emergency_continue EMERGENCY (Some do_continue_emergency);

    Fsm.mk_trans MEASURE check_off OFF (Some do_stop_urbanite) ].

Definition fsm_urbanite_fire (p_fsm : fsm_urbanite_t) : fsm_urbanite_t :=
  Fsm.fsm_fire current_state set_state fsm_trans_urbanite p_fsm.

(** Accessors used in the statements. *)
Definition button_duration (p : fsm_urbanite_t) : Z :=
  Button.fsm_button_get_duration (p_fsm_button p).
Definition ultrasound_status (p : fsm_urbanite_t) : bool :=
  Ultrasound.status (p_fsm_ultrasound_rear p).
Definition display_status (p : fsm_urbanite_t) : bool :=
  Display.fsm_display_get_status (p_fsm_display_rear p).

End Urbanite.

(** ** Initial states (the [*_init] functions and main.c) *)

Module Init.

(** [port_ultrasound_init]: flags and ticks of the mirror; the three
    timer set-ups leave the counters disabled. *)
Definition port_ultrasound_init : stm32f4_ultrasound_hw_t :=
  mk_hw false false true 0 0 0 false false false false false false.

(** [fsm_ultrasound_init]; [memset] zeroes the array. *)
Definition fsm_ultrasound_init : Ultrasound.fsm_ultrasound_t :=
  Ultrasound.mk_us Ultrasound.WAIT_START 0 false false
    (replicate (Z.to_nat Ultrasound.FSM_ULTRASOUND_NUM_MEASUREMENTS) 0) 0.

(** [fsm_display_init] *)
Definition fsm_display_init : Display.fsm_display_t :=
  Display.mk_disp Display.WAIT_DISPLAY (-1) false false false.

(** Modelled from the spec: fsm_button.c is missing; a new button FSM is
    in its starting state [BUTTON_RELEASED] with no press recorded. *)
Definition fsm_button_init : Button.fsm_button_t :=
  Button.mk_button Button.BUTTON_RELEASED 0.

Definition URBANITE_ON_OFF_PRESS_TIME_MS  : Z := 1000.
Definition URBANITE_PAUSE_DISPLAY_TIME_MS : Z := 250.
Definition URBANITE_EMERGENCY_TIME_MS     : Z := 3000.

(** [fsm_urbanite_init] with the arguments main.c passes. *)
Definition fsm_urbanite_init : Urbanite.fsm_urbanite_t :=
  Urbanite.mk_urbanite Urbanite.OFF fsm_button_init
    URBANITE_ON_OFF_PRESS_TIME_MS URBANITE_PAUSE_DISPLAY_TIME_MS
    URBANITE_EMERGENCY_TIME_MS false false false
    fsm_ultrasound_init fsm_display_init port_ultrasound_init.

End Init.

(** ** Specification-side notions *)

Module Spec.

(** Elapsed microseconds of a capture as the code counts them, over the
    integers: a wrapped capture ([end_tick < init_tick]) discounts one
    overflow when there is one to discount. *)
Definition elapsed_us (init_tick end_tick overflows : Z) : Z :=
  if init_tick <=? end_tick
  then (end_tick - init_tick) + overflows * 65536
  else (65536 - init_tick) + end_tick
       + (if 0 <? overflows then overflows - 1 else overflows) * 65536.

(** Elapsed microseconds as the distance-formula property words them:
    a wrapped capture always discounts one overflow. *)
Definition elapsed_us_discounting (init_tick end_tick overflows : Z) : Z :=
  if init_tick <=? end_tick
  then (end_tick - init_tick) + overflows * 65536
  else (65536 - init_tick) + end_tick + (overflows - 1) * 65536.

Fixpoint count_if (p : Z -> bool) (l : list Z) : nat :=
  match l with
  | [] => 0%nat
  | x :: l' => ((if p x then 1 else 0) + count_if p l')%nat
  end.

(** [m] is the median of a list of odd length: it occurs in the list,
    fewer than half of the elements are smaller and fewer than half are
    larger. *)
Definition is_median (m : Z) (l : list Z) : Prop :=
  m ∈ l /\
  (2 * count_if (fun x => (x <? m)%Z) l < length l)%nat /\
  (2 * count_if (fun x => (m <? x)%Z) l < length l)%nat.

(** Values whose pairwise unsigned differences keep their sign when
    read as [int]. *)
Definition small (x : Z) : Prop := 0 <= x < 2 ^ 31.

(** What the mirror holds after [do_set_distance] consumed a capture. *)
Definition hw_after (hw : stm32f4_ultrasound_hw_t) (c : capture) :=
  port_ultrasound_reset_echo_ticks
    (port_ultrasound_stop_echo_timer (echo_captured c hw)).

(** Typing invariant of the ring: five cells, index inside. *)
Definition window_inv (s : Ultrasound.fsm_ultrasound_t) : Prop :=
  0 <= Ultrasound.distance_idx s < Ultrasound.FSM_ULTRASOUND_NUM_MEASUREMENTS /\
  length (Ultrasound.distance_arr s) = 5%nat.

(** The sample ring with every cell zeroed. *)
Definition with_zeroed_ring (s : Ultrasound.fsm_ultrasound_t) :=
  Ultrasound.mk_us (Ultrasound.current_state s) (Ultrasound.distance_cm s)
    (Ultrasound.status s) (Ultrasound.new_measurement s)
    (replicate (Z.to_nat Ultrasound.FSM_ULTRASOUND_NUM_MEASUREMENTS) 0)
    (Ultrasound.distance_idx s).

(** What a reader of the ultrasound FSM can observe: everything but the
    cells of the ring that the current window has not written yet. *)
Definition observable (s : Ultrasound.fsm_ultrasound_t) :=
  (Ultrasound.current_state s, Ultrasound.distance_cm s,
   Ultrasound.status s, Ultrasound.new_measurement s,
   Ultrasound.distance_idx s,
   take (Z.to_nat (Ultrasound.distance_idx s)) (Ultrasound.distance_arr s)).

End Spec.

(** ** Concrete inputs used by the examples *)

Module Examples.
Import Urbanite.

(** Press of [d] ms just released: the button FSM is in its release
    debounce ([BUTTON_RELEASED_WAIT]) and exposes the duration. *)
Definition pressed_for (d : Z) : Button.fsm_button_t :=
  Button.mk_button Button.BUTTON_RELEASED_WAIT d.

(** The system as booted, then the button held [d] ms. *)
Definition off_after_press (d : Z) : fsm_urbanite_t :=
  with_button Init.fsm_urbanite_init (pressed_for d).

(** The system armed (OFF -> MEASURE by a 1200 ms press), then the
    button held [d] ms. *)
Definition armed : fsm_urbanite_t :=
  fsm_urbanite_fire (off_after_press 1200).

Definition measure_after_press (d : Z) : fsm_urbanite_t :=
  with_button armed (pressed_for d).

Definition in_emergency : fsm_urbanite_t :=
  fsm_urbanite_fire (measure_after_press 3200).

Definition emergency_after_press (d : Z) : fsm_urbanite_t :=
  with_button in_emergency (pressed_for d).

(** Armed, display rendered once (idle) and button at rest: nothing is
    active, so the next fire goes to sleep. *)
Definition armed_quiet : fsm_urbanite_t :=
  with_button
    (with_display armed
       (Display.mk_disp Display.SET_DISPLAY 30 false true true))
    (Button.mk_button Button.BUTTON_RELEASED 0).

Definition asleep_on : fsm_urbanite_t := fsm_urbanite_fire armed_quiet.

(** While asleep in SLEEP_WHILE_ON the driver starts pressing the
    button: the button FSM leaves [BUTTON_RELEASED]. *)
Definition asleep_on_button_down : fsm_urbanite_t :=
  with_button asleep_on (Button.mk_button Button.BUTTON_PRESSED_WAIT 0).


(** The capture of the 17 cm scenario of the spec. *)
Definition capture_991us : capture := mk_capture 100 1091 0.

(** A wrapped capture whose overflow interrupt has not been counted. *)
Definition capture_wrapped_no_overflow : capture := mk_capture 100 50 0.

Definition five_captures : list capture :=
  [ mk_capture 100 1849 0;    (* 1749 us -> 30 cm *)
    mk_capture 100 1733 0;    (* 1633 us -> 28 cm *)
    mk_capture 100 11760 0;   (* 11660 us -> 200 cm *)
    mk_capture 65000 1155 1;  (* wrapped, 1691 us -> 29 cm *)
    mk_capture 100 1908 0 ].  (* 1808 us -> 31 cm *)

(** A sample table of 8-bit colours. *)
Definition palette : Display.colour_table :=
  Display.mk_colours
    (Display.mk_rgb 255 0 0) (Display.mk_rgb 94 94 0) (Display.mk_rgb 0 255 0)
    (Display.mk_rgb 26 89 82) (Display.mk_rgb 0 0 255) (Display.mk_rgb 0 0 0).

End Examples.

(** ** The rest of the ultrasound FSM (fsm_ultrasound.c), of its port
    (stm32f4_ultrasound.c) and the timer interrupt handlers (interr.c) *)

Module UltrasoundFsm.
Import Ultrasound.

#[global] Instance FSM_ULTRASOUND_eq_dec : EqDecision FSM_ULTRASOUND.
Proof. solve_decision. Defined.

(** The ultrasound FSM together with the port record it drives. *)
Definition ultrasound_sys : Type :=
  (stm32f4_ultrasound_hw_t * fsm_ultrasound_t)%type.

(** [port_ultrasound_start_measurement]: the trigger line is raised and
    the three timers are started (their counters, which are reset here,
    and the NVIC lines of TIM2/TIM3 are not part of the record). *)
Definition port_ultrasound_start_measurement (hw : stm32f4_ultrasound_hw_t) :=
  mk_hw (echo_received hw) (trigger_end hw) false
        (echo_end_tick hw) (echo_init_tick hw) (echo_overflows hw)
        true (echo_line hw) true true true true.

Definition port_ultrasound_set_trigger_end (hw : stm32f4_ultrasound_hw_t) (v : bool) :=
  mk_hw (echo_received hw) v (trigger_ready hw)
        (echo_end_tick hw) (echo_init_tick hw) (echo_overflows hw)
        (trigger_line hw) (echo_line hw) (tim2_cen hw) (tim3_cen hw)
        (tim5_cen hw) (tim5_irq hw).

Definition port_ultrasound_set_echo_end_tick (hw : stm32f4_ultrasound_hw_t) (v : Z) :=
  mk_hw (echo_received hw) (trigger_end hw) (trigger_ready hw)
        v (echo_init_tick hw) (echo_overflows hw)
        (trigger_line hw) (echo_line hw) (tim2_cen hw) (tim3_cen hw)
        (tim5_cen hw) (tim5_irq hw).

Definition port_ultrasound_set_echo_init_tick (hw : stm32f4_ultrasound_hw_t) (v : Z) :=
  mk_hw (echo_received hw) (trigger_end hw) (trigger_ready hw)
        (echo_end_tick hw) v (echo_overflows hw)
        (trigger_line hw) (echo_line hw) (tim2_cen hw) (tim3_cen hw)
        (tim5_cen hw) (tim5_irq hw).

Definition port_ultrasound_set_echo_overflows (hw : stm32f4_ultrasound_hw_t) (v : Z) :=
  mk_hw (echo_received hw) (trigger_end hw) (trigger_ready hw)
        (echo_end_tick hw) (echo_init_tick hw) v
        (trigger_line hw) (echo_line hw) (tim2_cen hw) (tim3_cen hw)
        (tim5_cen hw) (tim5_irq hw).

Definition port_ultrasound_set_echo_received (hw : stm32f4_ultrasound_hw_t) (v : bool) :=
  mk_hw v (trigger_end hw) (trigger_ready hw)
        (echo_end_tick hw) (echo_init_tick hw) (echo_overflows hw)
        (trigger_line hw) (echo_line hw) (tim2_cen hw) (tim3_cen hw)
        (tim5_cen hw) (tim5_irq hw).

(** *** Interrupt handlers (interr.c).  The status flags [UIF] and
    [CC2IF] of TIM2 and its capture register [CCR2] are the inputs of
    the handler. *)

Definition TIM2_IRQHandler (uif cc2if : bool) (ccr2 : Z)
    (hw : stm32f4_ultrasound_hw_t) : stm32f4_ultrasound_hw_t :=
  let hw1 :=
    if uif
    then port_ultrasound_set_echo_overflows hw
           (wrap32 (port_ultrasound_get_echo_overflows hw + 1))
    else hw in
  if cc2if then
    let init_tick := port_ultrasound_get_echo_init_tick hw1 in
    let end_tick := port_ultrasound_get_echo_end_tick hw1 in
    if (init_tick =? 0) && (end_tick =? 0)
    then port_ultrasound_set_echo_init_tick hw1 ccr2
    else port_ultrasound_set_echo_received
           (port_ultrasound_set_echo_end_tick hw1 ccr2) true
  else hw1.

Definition TIM3_IRQHandler (hw : stm32f4_ultrasound_hw_t) :=
  port_ultrasound_set_trigger_end hw true.

Definition TIM5_IRQHandler (hw : stm32f4_ultrasound_hw_t) :=
  port_ultrasound_set_trigger_ready hw true.

(** *** Guards *)

Definition check_on (st : ultrasound_sys) : bool :=
  port_ultrasound_get_trigger_ready (fst st) && status (snd st).

Definition check_off (st : ultrasound_sys) : bool := negb (status (snd st)).

Definition check_trigger_end (st : ultrasound_sys) : bool := trigger_end (fst st).

Definition check_echo_init (st : ultrasound_sys) : bool :=
  0 <? port_ultrasound_get_echo_init_tick (fst st).

Definition check_echo_received (st : ultrasound_sys) : bool :=
  port_ultrasound_get_echo_received (fst st).

Definition check_new_measurement (st : ultrasound_sys) : bool :=
  port_ultrasound_get_trigger_ready (fst st).

(** *** Actions *)

Definition do_start_measurement (st : ultrasound_sys) : ultrasound_sys :=
  (port_ultrasound_start_measurement (fst st), snd st).

Definition do_stop_measurement (st : ultrasound_sys) : ultrasound_sys :=
  (port_ultrasound_stop_ultrasound (fst st), snd st).

Definition do_stop_trigger (st : ultrasound_sys) : ultrasound_sys :=
  (port_ultrasound_set_trigger_end
     (port_ultrasound_stop_trigger_timer (fst st)) false,
   snd st).

Definition do_start_new_measurement (st : ultrasound_sys) : ultrasound_sys :=
  do_start_measurement st.

Definition get_state (st : ultrasound_sys) : FSM_ULTRASOUND :=
  current_state (snd st).

Definition set_state (st : ultrasound_sys) (s : FSM_ULTRASOUND) : ultrasound_sys :=
  (fst st,
   mk_us s (distance_cm (snd st)) (status (snd st)) (new_measurement (snd st))
         (distance_arr (snd st)) (distance_idx (snd st))).

(** *** Transition table, in the order of the source *)

Definition fsm_trans_ultrasound
    : list (@Fsm.fsm_trans_t ultrasound_sys FSM_ULTRASOUND) :=
  [ Fsm.mk_trans WAIT_START check_on TRIGGER_START (Some do_start_measurement);
    Fsm.mk_trans TRIGGER_START check_trigger_end WAIT_ECHO_START (Some do_stop_trigger);
    Fsm.mk_trans WAIT_ECHO_START check_echo_init WAIT_ECHO_END None;
    Fsm.mk_trans WAIT_ECHO_END check_echo_received SET_DISTANCE (Some do_set_distance);
    Fsm.mk_trans SET_DISTANCE check_new_measurement TRIGGER_START (Some do_start_new_measurement);
    Fsm.mk_trans SET_DISTANCE check_off WAIT_START (Some do_stop_measurement) ].

Definition fsm_ultrasound_fire (st : ultrasound_sys) : ultrasound_sys :=
  Fsm.fsm_fire get_state set_state fsm_trans_ultrasound st.

(** *** Invariant of the sample ring: five cells, the index inside, and
    every stored value (the published distance too) a raw sample. *)
Definition sample (x : Z) : Prop := 0 <= x < 2 ^ 27.

Definition ring_inv (s : fsm_ultrasound_t) : Prop :=
  Spec.window_inv s /\ Forall sample (distance_arr s) /\ sample (distance_cm s).

(** Number of samples of a window that lie in [[lo, hi]]. *)
Definition count_within (lo hi : Z) (l : list Z) : nat :=
  Spec.count_if (fun x => (lo <=? x) && (x <=? hi)) l.

End UltrasoundFsm.

(** ** The rest of the display FSM (fsm_display.c) and the PWM port
    (stm32f4_display.c) *)

Module DisplayFsm.
Import Display.

#[global] Instance FSM_DISPLAY_SYSTEM_eq_dec : EqDecision FSM_DISPLAY_SYSTEM.
Proof. solve_decision. Defined.

(** TIM4 as [port_display_set_rgb] sees it: the auto-reload register,
    the three compare registers (CH1 red, CH3 green, CH4 blue), their
    output-enable bits in CCER and the counter-enable bit. *)
Record tim4_pwm := mk_pwm {
  tim4_arr : Z;
  ccr1 : Z; ccr3 : Z; ccr4 : Z;
  cc1e : bool; cc3e : bool; cc4e : bool;
  tim4_cen : bool
}.

(** [_timer_pwm_config]: period 63999, outputs and counter disabled. *)
Definition _timer_pwm_config (t : tim4_pwm) : tim4_pwm :=
  mk_pwm 63999 (ccr1 t) (ccr3 t) (ccr4 t) false false false false.

(** Modelled from the spec: port_display.h, which defines this macro, is
    not among the sources; the spec gives the duty mapping as
    [CCRx = channel * ARR / 255]. *)
Definition PORT_DISPLAY_RGB_MAX_VALUE : Z := 255.

Section Display_id.

(** [PORT_REAR_PARKING_DISPLAY_ID] (port_display.h, not among the
    sources) and the colour table are parameters. *)
Variable PORT_REAR_PARKING_DISPLAY_ID : Z.
Variable k : colour_table.

(** The identifier stored in the FSM at creation ([display_id]). *)
Variable display_id : Z.

Definition duty (channel arr : Z) : Z :=
  wrap32 (channel * arr) / PORT_DISPLAY_RGB_MAX_VALUE.

Definition port_display_set_rgb (t : tim4_pwm) (color : rgb_color_t) : tim4_pwm :=
  if negb (display_id =? PORT_REAR_PARKING_DISPLAY_ID) then t
  else
    let rv := wrap8 (r color) in
    let gv := wrap8 (g color) in
    let bv := wrap8 (b color) in
    if (rv =? 0) && (gv =? 0) && (bv =? 0)
    then mk_pwm (tim4_arr t) (ccr1 t) (ccr3 t) (ccr4 t) false false false false
    else
      mk_pwm (tim4_arr t)
        (if rv =? 0 then ccr1 t else duty rv (tim4_arr t))
        (if gv =? 0 then ccr3 t else duty gv (tim4_arr t))
        (if bv =? 0 then ccr4 t else duty bv (tim4_arr t))
        (negb (rv =? 0)) (negb (gv =? 0)) (negb (bv =? 0))
        true.

(** [port_display_init] (for a valid identifier). *)
Definition port_display_init (t : tim4_pwm) : tim4_pwm :=
  port_display_set_rgb (_timer_pwm_config t) (COLOR_OFF k).

Definition display_sys : Type := (tim4_pwm * fsm_display_t)%type.

Definition check_active (st : display_sys) : bool := status (snd st).
Definition check_set_new_color (st : display_sys) : bool := new_color (snd st).
Definition check_off (st : display_sys) : bool := negb (status (snd st)).

Definition do_set_on (st : display_sys) : display_sys :=
  (port_display_set_rgb (fst st) (COLOR_OFF k), snd st).

Definition do_set_color (st : display_sys) : display_sys :=
  let color := _compute_display_levels k (distance_cm (snd st)) in
  (port_display_set_rgb (fst st) color,
   mk_disp (current_state (snd st)) (distance_cm (snd st)) false
           (status (snd st)) true).

Definition do_set_off (st : display_sys) : display_sys :=
  (port_display_set_rgb (fst st) (COLOR_OFF k),
   mk_disp (current_state (snd st)) (distance_cm (snd st))
           (new_color (snd st)) (status (snd st)) false).

Definition get_state (st : display_sys) : FSM_DISPLAY_SYSTEM :=
  current_state (snd st).

Definition set_state (st : display_sys) (s : FSM_DISPLAY_SYSTEM) : display_sys :=
  (fst st,
   mk_disp s (distance_cm (snd st)) (new_color (snd st)) (status (snd st))
           (idle (snd st))).

Definition fsm_trans_display
    : list (@Fsm.fsm_trans_t display_sys FSM_DISPLAY_SYSTEM) :=
  [ Fsm.mk_trans WAIT_DISPLAY check_active SET_DISPLAY (Some do_set_on);
    Fsm.mk_trans SET_DISPLAY check_set_new_color SET_DISPLAY (Some do_set_color);
    Fsm.mk_trans SET_DISPLAY check_off WAIT_DISPLAY (Some do_set_off) ].

Definition fsm_display_fire (st : display_sys) : display_sys :=
  Fsm.fsm_fire get_state set_state fsm_trans_display st.

End Display_id.

(** [fsm_display_get_distance]: the [int32_t] field returned as
    [uint32_t]. *)
Definition fsm_display_get_distance (p_fsm : fsm_display_t) : Z :=
  wrap32 (distance_cm p_fsm).

(** The PWM shows nothing: every output disabled, counter stopped. *)
Definition pwm_dark (t : tim4_pwm) : Prop :=
  cc1e t = false /\ cc3e t = false /\ cc4e t = false /\ tim4_cen t = false.

Definition is_black (c : rgb_color_t) : Prop := r c = 0 /\ g c = 0 /\ b c = 0.

End DisplayFsm.

(** ** The board: the master FSM, its leaves and the interrupts *)

Module Board.
Import Urbanite.

Definition with_hw (p : fsm_urbanite_t) (hw : stm32f4_ultrasound_hw_t) :=
  with_ultrasound p (hw, p_fsm_ultrasound_rear p).

(** One thing that can happen between two observations of the master
    record: a fire of the master FSM or of the ultrasound FSM (main.c
    fires them in turn), a timer interrupt, a write of the display FSM
    to its own flags, or any change of the button FSM (fsm_button.c is
    not among the sources, so the button is left unconstrained). *)
Inductive step : fsm_urbanite_t -> fsm_urbanite_t -> Prop :=
| step_urbanite p : step p (fsm_urbanite_fire p)
| step_ultrasound p :
    step p (with_ultrasound p
              (UltrasoundFsm.fsm_ultrasound_fire (ultrasound_of p)))
| step_tim2 p uif cc2if ccr2 :
    step p (with_hw p (UltrasoundFsm.TIM2_IRQHandler uif cc2if ccr2
                         (ultrasound_hw p)))
| step_tim3 p :
    step p (with_hw p (UltrasoundFsm.TIM3_IRQHandler (ultrasound_hw p)))
| step_tim5 p :
    step p (with_hw p (UltrasoundFsm.TIM5_IRQHandler (ultrasound_hw p)))
| step_display p rear_id k id t :
    step p (with_display p
              (snd (DisplayFsm.fsm_display_fire rear_id k id
                      (t, p_fsm_display_rear p))))
| step_button p bt : step p (with_button p bt).

Inductive reachable : fsm_urbanite_t -> Prop :=
| reachable_init : reachable Init.fsm_urbanite_init
| reachable_step p q : reachable p -> step p q -> reachable q.

Definition is_off (s : FSM_URBANITE) : bool :=
  match s with OFF | SLEEP_WHILE_OFF => true | _ => false end.

Definition is_on (s : FSM_URBANITE) : bool :=
  match s with MEASURE | SLEEP_WHILE_ON => true | _ => false end.

(** How the mode flags go with the state of the master FSM. *)
Definition mode_inv (p : fsm_urbanite_t) : Prop :=
  (emergency p = true <-> current_state p = EMERGENCY) /\
  (is_off (current_state p) = true ->
     is_paused p = false /\ ultrasound_status p = false /\
     display_status p = false) /\
  (is_on (current_state p) = true ->
     ultrasound_status p = true /\
     (is_paused p = false -> display_status p = true)) /\
  (current_state p = EMERGENCY ->
     ultrasound_status p = false /\ display_status p = true) /\
  UltrasoundFsm.ring_inv (p_fsm_ultrasound_rear p).

(** The thresholds as the spec orders them. *)
Definition thresholds_ordered (p : fsm_urbanite_t) : Prop :=
  0 <= pause_display_time_ms p /\
  pause_display_time_ms p <= on_off_press_time_ms p /\
  on_off_press_time_ms p < emergency_time_ms p.

(** The three modes of operation: off (OFF, SLEEP_WHILE_OFF), on
    (MEASURE, SLEEP_WHILE_ON) and emergency. *)
Definition same_mode (s s' : FSM_URBANITE) : Prop :=
  is_off s = is_off s' /\ is_on s = is_on s'.

(** The arrows of the transition table. *)
Definition allowed (s s' : FSM_URBANITE) : bool :=
  match s, s' with
  | OFF, (OFF | SLEEP_WHILE_OFF | MEASURE) => true
  | SLEEP_WHILE_OFF, (OFF | SLEEP_WHILE_OFF) => true
  | MEASURE, (MEASURE | SLEEP_WHILE_ON | EMERGENCY | OFF) => true
  | SLEEP_WHILE_ON, (MEASURE | SLEEP_WHILE_ON) => true
  | EMERGENCY, (MEASURE | EMERGENCY) => true
  | _, _ => false
  end.

(** No guard that reads the press duration holds. *)
Definition no_press_guard (p : fsm_urbanite_t) : Prop :=
  check_on p = false /\ check_off p = false /\
  check_pause_display p = false /\ check_emergency_on p = false /\
  check_emergency_off p = false.

End Board.

(** * Proofs *)

(** ** Machine-integer facts *)

Module WordFacts.

Lemma wrap32_range x : 0 <= wrap32 x < 2 ^ 32.
Proof. unfold wrap32. apply Z.mod_pos_bound. lia. Qed.

Lemma wrap32_small x : 0 <= x < 2 ^ 32 -> wrap32 x = x.
Proof. intros H. unfold wrap32. apply Z.mod_small. exact H. Qed.

Lemma wrap64_small x : 0 <= x < 2 ^ 64 -> wrap64 x = x.
Proof. intros H. unfold wrap64. apply Z.mod_small. exact H. Qed.

Lemma wrap8_small x : 0 <= x < 2 ^ 8 -> wrap8 x = x.
Proof. intros H. unfold wrap8. apply Z.mod_small. exact H. Qed.

Lemma wrap16_small x : 0 <= x < 2 ^ 16 -> wrap16 x = x.
Proof. intros H. unfold wrap16. apply Z.mod_small. exact H. Qed.

Lemma wrap32_add_l a b : wrap32 (wrap32 a + b) = wrap32 (a + b).
Proof. unfold wrap32. apply Z.add_mod_idemp_l. lia. Qed.

Lemma wrap32_add_r a b : wrap32 (a + wrap32 b) = wrap32 (a + b).
Proof. unfold wrap32. apply Z.add_mod_idemp_r. lia. Qed.

Lemma wrap32_mul_l a b : wrap32 (wrap32 a * b) = wrap32 (a * b).
Proof. unfold wrap32. apply Z.mul_mod_idemp_l. lia. Qed.

Lemma to_int32_small x : 0 <= x < 2 ^ 31 -> to_int32 x = x.
Proof.
  intros H. unfold to_int32. rewrite wrap32_small by lia.
  destruct (Z.ltb_spec x (2 ^ 31)); lia.
Qed.

End WordFacts.

(** ** Distance computation *)

Module DistanceProofs.
Import Ultrasound Spec WordFacts.

(** The 32-bit computation of the source is the integer count reduced
    modulo 2^32. *)
Lemma ticks_elapsed_mod init_tick end_tick overflows :
  ticks_elapsed init_tick end_tick overflows
  = elapsed_us init_tick end_tick overflows mod 2 ^ 32.
Proof.
  unfold ticks_elapsed, elapsed_us.
  destruct (init_tick <=? end_tick); cbv beta iota zeta.
  - rewrite wrap32_add_l, wrap32_add_r. reflexivity.
  - rewrite wrap32_add_l, <- Z.add_assoc, wrap32_add_l, Z.add_assoc.
    destruct (0 <? overflows).
    + rewrite wrap32_mul_l, wrap32_add_r. reflexivity.
    + rewrite wrap32_add_r. reflexivity.
Qed.

Lemma ticks_elapsed_range i e o : 0 <= ticks_elapsed i e o < 2 ^ 32.
Proof. rewrite ticks_elapsed_mod. apply Z.mod_pos_bound. lia. Qed.

(** Neither the 64-bit product nor the final cast loses anything. *)
Lemma raw_distance_mod i e o :
  raw_distance i e o = (elapsed_us i e o mod 2 ^ 32) * 10 / 583.
Proof.
  unfold raw_distance.
  pose proof (ticks_elapsed_range i e o) as Ht.
  rewrite <- ticks_elapsed_mod.
  rewrite wrap64_small by lia.
  apply wrap32_small.
  split.
  - apply Z.div_pos; lia.
  - apply Z.div_lt_upper_bound; lia.
Qed.

(** Every raw sample is below 2^27, far from the sign bit that the
    comparator of [qsort] is sensitive to. *)
Lemma raw_distance_range i e o : 0 <= raw_distance i e o < 2 ^ 27.
Proof.
  rewrite raw_distance_mod.
  pose proof (Z.mod_pos_bound (elapsed_us i e o) (2 ^ 32) ltac:(lia)) as Ht.
  split.
  - apply Z.div_pos; lia.
  - apply Z.div_lt_upper_bound; lia.
Qed.

(** The sample computed by [do_set_distance] is the one written in the
    ring at [distance_idx]; on the last cell of a window the ring is
    sorted right after the write. *)
Lemma do_set_distance_stores hw s :
  let s' := snd (do_set_distance (hw, s)) in
  let arr := <[Z.to_nat (distance_idx s) :=
                 raw_distance (echo_init_tick hw) (echo_end_tick hw)
                              (echo_overflows hw)]> (distance_arr s) in
  distance_arr s' = arr \/ distance_arr s' = qsort _compare arr.
Proof.
  cbn -[raw_distance wrap32 Z.leb qsort].
  unfold port_ultrasound_get_echo_init_tick, port_ultrasound_get_echo_end_tick,
    port_ultrasound_get_echo_overflows.
  destruct (FSM_ULTRASOUND_NUM_MEASUREMENTS <=? wrap32 (distance_idx s + 1));
    [right | left]; reflexivity.
Qed.

(** C1 (amended): for a capture consumed by [do_set_distance] the raw
    sample written in the ring is floor(E*10/583), where E is
    [end-init + overflows*65536] for [end >= init] and, for a wrapped
    capture, [(65536-init) + end + (overflows-1)*65536] when
    [overflows >= 1] but [(65536-init) + end] when [overflows = 0];
    this holds whenever E fits the 32-bit counter of the source. *)
Theorem raw_distance_formula hw s c :
  let E := elapsed_us (cap_init c) (cap_end c) (cap_overflows c) in
  0 <= E < 2 ^ 32 ->
  raw_of c = E * 10 / 583 /\
  let s' := snd (capture_step (hw, s) c) in
  let arr := <[Z.to_nat (distance_idx s) := E * 10 / 583]> (distance_arr s) in
  distance_arr s' = arr \/ distance_arr s' = qsort _compare arr.
Proof.
  intros E HE.
  assert (Hraw : raw_of c = E * 10 / 583).
  { unfold raw_of. rewrite raw_distance_mod. fold E.
    rewrite Z.mod_small by exact HE. reflexivity. }
  split; [exact Hraw |].
  intros s' arr. subst s' arr. rewrite <- Hraw.
  exact (do_set_distance_stores (echo_captured c hw) s).
Qed.

Lemma raw_distance_formula_witness :
  raw_of (mk_capture 65000 1155 1) = 1691 * 10 / 583.
Proof.
  apply (raw_distance_formula Init.port_ultrasound_init
           Init.fsm_ultrasound_init (mk_capture 65000 1155 1)).
  vm_compute. split; [discriminate | reflexivity].
Defined.

(** C1, as written, fails on a wrapped capture with no overflow counted:
    the source discounts nothing there, the property discounts one. *)
Lemma raw_distance_discounting_counterexample :
  raw_of Examples.capture_wrapped_no_overflow = 1123 /\
  elapsed_us_discounting 100 50 0 = -50 /\
  raw_of Examples.capture_wrapped_no_overflow
    <> elapsed_us_discounting 100 50 0 * 10 / 583 /\
  raw_of Examples.capture_wrapped_no_overflow
    <> wrap32 (elapsed_us_discounting 100 50 0) * 10 / 583.
Proof. vm_compute. repeat split; discriminate. Qed.

(** C8 (amended): the capture init = 100, end = 1091, overflows = 0
    (991 us) gives the raw distance 16 cm, which is what
    [do_set_distance] writes in the first cell of a fresh ring. *)
Theorem raw_distance_991us :
  ticks_elapsed 100 1091 0 = 991 /\
  raw_distance 100 1091 0 = 16 /\
  distance_arr
    (snd (capture_step (Init.port_ultrasound_init, Init.fsm_ultrasound_init)
            Examples.capture_991us))
  = [16; 0; 0; 0; 0].
Proof. vm_compute. repeat split; reflexivity. Qed.

(** C8, as written: the raw distance is not 17 cm (9910 < 17 * 583). *)
Lemma raw_distance_991us_not_17 : raw_distance 100 1091 0 <> 17.
Proof. vm_compute. discriminate. Qed.

End DistanceProofs.

(** ** Median window *)

Module MedianProofs.
Import Ultrasound Spec WordFacts DistanceProofs.

(** On values below 2^31 the comparator orders like [<=]. *)
Lemma compare_le a b :
  small a -> small b -> (_compare a b <=? 0) = (a <=? b).
Proof.
  unfold small, _compare. intros Ha Hb.
  destruct (Z.leb_spec a b) as [Hab | Hab].
  - destruct (Z.eq_dec a b) as [-> | Hne].
    + rewrite Z.sub_diag. reflexivity.
    + assert (Hw : wrap32 (a - b) = a - b + 2 ^ 32).
      { unfold wrap32. symmetry. apply (Z.mod_unique _ _ (-1)); lia. }
      unfold to_int32. rewrite Hw, wrap32_small by lia.
      destruct (Z.ltb_spec (a - b + 2 ^ 32) (2 ^ 31)); [lia |].
      apply Z.leb_le. lia.
  - rewrite (wrap32_small (a - b)) by lia.
    rewrite to_int32_small by lia.
    apply Z.leb_gt. lia.
Qed.

Lemma qsort_place_perm cmp x l : Permutation (qsort_place cmp x l) (x :: l).
Proof.
  induction l as [| y l IH]; simpl.
  - reflexivity.
  - destruct (cmp x y <=? 0).
    + reflexivity.
    + rewrite IH. apply perm_swap.
Qed.

Lemma qsort_perm cmp l : Permutation (qsort cmp l) l.
Proof.
  induction l as [| x l IH]; simpl.
  - reflexivity.
  - rewrite qsort_place_perm. constructor. exact IH.
Qed.

Lemma qsort_length cmp l : length (qsort cmp l) = length l.
Proof. apply Permutation_length, qsort_perm. Qed.

Lemma qsort_place_sorted x l :
  small x -> Forall small l -> StronglySorted Z.le l ->
  StronglySorted Z.le (qsort_place _compare x l).
Proof.
  intros Hx Hl Hs. induction Hs as [| y l Hs IH Hy]; simpl.
  - repeat constructor.
  - inversion Hl as [| ? ? Hsy Hl']; subst.
    rewrite compare_le by assumption.
    destruct (Z.leb_spec x y) as [Hxy | Hxy].
    + constructor; [constructor; assumption |].
      constructor; [exact Hxy |].
      eapply Forall_impl; [exact Hy |]. intros z Hz. simpl in Hz. lia.
    + constructor; [apply IH; assumption |].
      eapply Permutation_Forall.
      * symmetry. apply qsort_place_perm.
      * constructor; [lia | exact Hy].
Qed.

Lemma qsort_sorted l :
  Forall small l -> StronglySorted Z.le (qsort _compare l).
Proof.
  induction 1 as [| x l Hx Hl IH]; simpl.
  - constructor.
  - apply qsort_place_sorted; [exact Hx | | exact IH].
    eapply Permutation_Forall; [symmetry; apply qsort_perm | exact Hl].
Qed.

Lemma count_if_perm p l l' :
  Permutation l l' -> count_if p l = count_if p l'.
Proof.
  induction 1; simpl; lia.
Qed.

(** The middle cell of a sorted window of five is its median. *)
Lemma middle_is_median l :
  length l = 5%nat -> Forall small l ->
  is_median (aget (qsort _compare l) 2) l.
Proof.
  intros Hlen Hsmall.
  pose proof (qsort_perm _compare l) as Hperm.
  pose proof (qsort_sorted l Hsmall) as Hsorted.
  pose proof (qsort_length _compare l) as Hlen'.
  rewrite Hlen in Hlen'.
  destruct (qsort _compare l) as [| a [| b [| c [| d [| e [| ? ?]]]]]];
    try discriminate Hlen'.
  unfold is_median.
  rewrite <- (count_if_perm _ _ _ Hperm), <- (count_if_perm _ _ _ Hperm), Hlen.
  change (aget [a; b; c; d; e] 2) with c.
  split.
  - rewrite <- Hperm. apply list_elem_of_In. simpl. tauto.
  - apply StronglySorted_inv in Hsorted as [Hs1 Ha].
    apply StronglySorted_inv in Hs1 as [Hs2 Hb].
    apply StronglySorted_inv in Hs2 as [Hs3 Hc].
    apply StronglySorted_inv in Hs3 as [_ Hd].
    repeat match goal with
           | H : Forall _ (_ :: _) |- _ => apply Forall_cons in H as [? H]
           end.
    simpl.
    repeat match goal with
           | |- context [?x <? ?y] => destruct (Z.ltb_spec x y)
           end; lia.
Qed.

(** [is_median] pins the value down: two medians of one list agree. *)
Lemma is_median_unique m1 m2 l :
  is_median m1 l -> is_median m2 l -> m1 = m2.
Proof.
  assert (Hcount : forall a b (k : list Z), a < b ->
    (length k <= count_if (fun x => (x <? b)%Z) k
                 + count_if (fun x => (a <? x)%Z) k)%nat).
  { intros a b k Hab. induction k as [| x k IH]; simpl; [lia |].
    destruct (Z.ltb_spec x b), (Z.ltb_spec a x); lia. }
  intros (_ & Hlo1 & Hhi1) (_ & Hlo2 & Hhi2).
  destruct (Z.lt_trichotomy m1 m2) as [Hlt | [Heq | Hgt]]; [| exact Heq |].
  - pose proof (Hcount m1 m2 l Hlt). lia.
  - pose proof (Hcount m2 m1 l Hgt). lia.
Qed.

Lemma raw_of_small c : small (raw_of c).
Proof.
  unfold small, raw_of.
  pose proof (raw_distance_range (cap_init c) (cap_end c) (cap_overflows c)).
  lia.
Qed.

(** A capture that does not complete the window only fills one cell. *)
Lemma capture_step_partial hw st0 d en nm arr idx c :
  0 <= idx < 4 ->
  capture_step (hw, mk_us st0 d en nm arr idx) c
  = (hw_after hw c,
     mk_us st0 d en nm (<[Z.to_nat idx := raw_of c]> arr) (idx + 1)).
Proof.
  intros Hidx. unfold capture_step, do_set_distance, hw_after, raw_of.
  cbn [fst snd distance_idx]. rewrite wrap32_small by lia.
  unfold FSM_ULTRASOUND_NUM_MEASUREMENTS.
  destruct (Z.leb_spec 5 (idx + 1)); [lia |].
  reflexivity.
Qed.

(** The capture that completes the window sorts the ring, publishes the
    middle cell and raises [new_measurement]. *)
Lemma capture_step_full hw st0 d en nm arr idx c :
  idx = 4 ->
  capture_step (hw, mk_us st0 d en nm arr idx) c
  = (hw_after hw c,
     mk_us st0 (aget (qsort _compare (<[4%nat := raw_of c]> arr)) 2) en true
       (qsort _compare (<[4%nat := raw_of c]> arr)) 0).
Proof. intros ->. reflexivity. Qed.

Ltac window_step :=
  first [ rewrite capture_step_partial by lia
        | rewrite capture_step_full by lia ].

(** C2: from an empty window, the first four captures leave
    [distance_cm] and [new_measurement] as they were; the fifth sets
    [distance_cm] to the median of the five raw distances, raises
    [new_measurement], and wraps the index to 0 over a ring of five
    cells, ready for the next window. *)
Theorem median_window hw s c1 c2 c3 c4 c5 :
  distance_idx s = 0 -> length (distance_arr s) = 5%nat ->
  let cs := [c1; c2; c3; c4; c5] in
  (forall k, (k <= 4)%nat ->
     let s' := snd (feed (hw, s) (take k cs)) in
     distance_cm s' = distance_cm s /\
     new_measurement s' = new_measurement s) /\
  let s5 := snd (feed (hw, s) cs) in
  is_median (distance_cm s5) (map raw_of cs) /\
  new_measurement s5 = true /\
  distance_idx s5 = 0 /\
  length (distance_arr s5) = 5%nat.
Proof.
  destruct s as [st0 d en nm arr idx]. cbn [distance_idx distance_arr].
  intros -> Hlen.
  destruct arr as [| x0 [| x1 [| x2 [| x3 [| x4 [| ? ?]]]]]];
    try discriminate Hlen.
  split.
  - intros k Hk. unfold feed.
    destruct k as [| [| [| [| [| k]]]]]; [.. | lia];
      cbn [take foldl]; repeat window_step; split; reflexivity.
  - unfold feed. cbn [foldl]. repeat window_step.
    cbn [snd distance_cm new_measurement distance_idx distance_arr].
    change (<[4%nat := raw_of c5]> _)
      with [raw_of c1; raw_of c2; raw_of c3; raw_of c4; raw_of c5].
    split; [| split; [reflexivity | split; [reflexivity |]]].
    + apply middle_is_median.
      * reflexivity.
      * repeat constructor; apply raw_of_small.
    + rewrite qsort_length. reflexivity.
Qed.

Lemma median_window_witness :
  Spec.is_median
    (distance_cm
       (snd (feed (Init.port_ultrasound_init, Init.fsm_ultrasound_init)
               Examples.five_captures)))
    (map raw_of Examples.five_captures).
Proof.
  apply (median_window Init.port_ultrasound_init Init.fsm_ultrasound_init
           (mk_capture 100 1849 0) (mk_capture 100 1733 0)
           (mk_capture 100 11760 0) (mk_capture 65000 1155 1)
           (mk_capture 100 1908 0)); reflexivity.
Defined.

(** Scenario 4 of the spec, run on the model. *)
Example median_scenario :
  map raw_of Examples.five_captures = [30; 28; 200; 29; 31] /\
  distance_cm
    (snd (feed (Init.port_ultrasound_init, Init.fsm_ultrasound_init)
            Examples.five_captures)) = 30.
Proof. vm_compute. split; reflexivity. Qed.

End MedianProofs.

(** ** Starting the ultrasound FSM *)

Module StartProofs.
Import Ultrasound Spec WordFacts DistanceProofs MedianProofs.

Lemma capture_step_inv hw s c :
  window_inv s -> window_inv (snd (capture_step (hw, s) c)).
Proof.
  destruct s as [st0 d en nm arr idx]. unfold window_inv.
  cbn [distance_idx distance_arr]. unfold FSM_ULTRASOUND_NUM_MEASUREMENTS.
  intros [Hidx Hlen].
  destruct (Z.eq_dec idx 4) as [-> | Hne].
  - rewrite capture_step_full by reflexivity.
    cbn [snd distance_idx distance_arr].
    rewrite qsort_length, length_insert. split; [lia | exact Hlen].
  - rewrite capture_step_partial by lia.
    cbn [snd distance_idx distance_arr].
    rewrite length_insert. split; [lia | exact Hlen].
Qed.

Lemma take_succ_insert (l : list Z) (n : nat) (v : Z) :
  (n < length l)%nat -> take (S n) (<[n := v]> l) = take n l ++ [v].
Proof.
  intros Hn.
  rewrite (take_S_r _ n v) by (apply list_lookup_insert_eq; exact Hn).
  rewrite take_insert_ge by lia. reflexivity.
Qed.

Lemma insert_last (l : list Z) (n : nat) (v : Z) :
  length l = S n -> <[n := v]> l = take n l ++ [v].
Proof.
  intros Hlen. rewrite insert_take_drop by lia.
  rewrite drop_ge by lia. reflexivity.
Qed.

(** Two ring states that look the same to a reader stay so under any
    capture: cells beyond the index are overwritten before they are
    ever read. *)
Lemma capture_step_observable hw a b c :
  window_inv a -> window_inv b -> observable a = observable b ->
  fst (capture_step (hw, a) c) = fst (capture_step (hw, b) c) /\
  observable (snd (capture_step (hw, a) c))
  = observable (snd (capture_step (hw, b) c)).
Proof.
  destruct a as [st0 d en nm arr idx], b as [st0' d' en' nm' arr' idx'].
  unfold window_inv, observable, FSM_ULTRASOUND_NUM_MEASUREMENTS.
  cbn [current_state distance_cm status new_measurement distance_idx
       distance_arr].
  intros [Hidx Hlen] [_ Hlen'] Hobs.
  injection Hobs as <- <- <- <- <- Htake.
  destruct (Z.eq_dec idx 4) as [-> | Hne].
  - rewrite !capture_step_full by reflexivity.
    cbn [fst snd current_state distance_cm status new_measurement
         distance_idx distance_arr].
    change (Z.to_nat 4) with 4%nat in Htake.
    rewrite (insert_last arr 4) by exact Hlen.
    rewrite (insert_last arr' 4) by exact Hlen'.
    rewrite Htake. split; reflexivity.
  - rewrite !capture_step_partial by lia.
    cbn [fst snd current_state distance_cm status new_measurement
         distance_idx distance_arr].
    split; [reflexivity |].
    replace (Z.to_nat (idx + 1)) with (S (Z.to_nat idx)) by lia.
    rewrite !take_succ_insert by lia.
    rewrite Htake. reflexivity.
Qed.

Lemma feed_observable cs : forall hw a b,
  window_inv a -> window_inv b -> observable a = observable b ->
  fst (feed (hw, a) cs) = fst (feed (hw, b) cs) /\
  observable (snd (feed (hw, a) cs)) = observable (snd (feed (hw, b) cs)).
Proof.
  unfold feed.
  induction cs as [| c cs IH]; intros hw a b Ha Hb Hobs; cbn [foldl].
  - split; [reflexivity | exact Hobs].
  - destruct (capture_step_observable hw a b c Ha Hb Hobs) as [Hhw Hobs'].
    pose proof (capture_step_inv hw a c Ha) as Ha'.
    pose proof (capture_step_inv hw b c Hb) as Hb'.
    destruct (capture_step (hw, a) c) as [hwa a'].
    destruct (capture_step (hw, b) c) as [hwb b'].
    cbn [fst snd] in *. subst hwb.
    apply IH; assumption.
Qed.

(** C9: whatever the prior state, [fsm_ultrasound_start] enables the
    sensor, marks the trigger ready in the port, enables the
    new-measurement timer and clears the sample ring: the window is
    empty again ([distance_idx = 0], [distance_cm = 0]) and, over any
    sequence of later captures, the FSM behaves as if every cell of the
    ring had been zeroed. *)
Theorem fsm_ultrasound_start_effect hw s :
  let st' := fsm_ultrasound_start (hw, s) in
  status (snd st') = true /\
  distance_idx (snd st') = 0 /\
  distance_cm (snd st') = 0 /\
  port_ultrasound_get_trigger_ready (fst st') = true /\
  tim5_cen (fst st') = true /\
  tim5_irq (fst st') = true /\
  (length (distance_arr s) = 5%nat ->
   forall cs,
     let zeroed := fsm_ultrasound_start (hw, with_zeroed_ring s) in
     fst (feed st' cs) = fst (feed zeroed cs) /\
     observable (snd (feed st' cs)) = observable (snd (feed zeroed cs))).
Proof.
  cbn [fsm_ultrasound_start fst snd status distance_idx distance_cm].
  repeat (split; [reflexivity |]).
  intros Hlen cs.
  apply feed_observable.
  - split; [unfold FSM_ULTRASOUND_NUM_MEASUREMENTS; cbn; lia | exact Hlen].
  - split; [unfold FSM_ULTRASOUND_NUM_MEASUREMENTS; cbn; lia | reflexivity].
  - reflexivity.
Qed.

Lemma fsm_ultrasound_start_effect_witness :
  observable
    (snd (feed (fsm_ultrasound_start
                  (Init.port_ultrasound_init,
                   mk_us SET_DISTANCE 30 false true [28; 29; 30; 31; 200] 3))
            Examples.five_captures))
  = observable
      (snd (feed (fsm_ultrasound_start
                    (Init.port_ultrasound_init,
                     mk_us SET_DISTANCE 30 false true [0; 0; 0; 0; 0] 3))
              Examples.five_captures)).
Proof.
  apply (fsm_ultrasound_start_effect Init.port_ultrasound_init
           (mk_us SET_DISTANCE 30 false true [28; 29; 30; 31; 200] 3)).
  reflexivity.
Defined.

End StartProofs.

(** ** Colour interpolation *)

Module DisplayProofs.
Import Display WordFacts.

(** Inside the 8-bit range no cast of [_interpolate_color] wraps and
    the truncating division is the floor. *)
Lemma interpolate_channel_exact c1 c2 t :
  is_u8 c1 -> is_u8 c2 -> 0 <= t <= 255 ->
  interpolate_channel c1 c2 t = ((255 - t) * c1 + t * c2) / 255 /\
  Z.min c1 c2 <= interpolate_channel c1 c2 t <= Z.max c1 c2.
Proof.
  unfold is_u8, interpolate_channel. intros H1 H2 Ht.
  rewrite !wrap16_small by lia.
  set (n := (255 - t) * c1 + t * c2).
  assert (Hlo : 255 * Z.min c1 c2 <= n) by (subst n; nia).
  assert (Hhi : n <= 255 * Z.max c1 c2) by (subst n; nia).
  assert (Hn : 0 <= n) by lia.
  rewrite Z.quot_div_nonneg by lia.
  assert (Hq : Z.min c1 c2 <= n / 255 <= Z.max c1 c2).
  { split.
    - apply Z.div_le_lower_bound; lia.
    - apply Z.div_le_upper_bound; lia. }
  rewrite wrap8_small by lia.
  split; [reflexivity | exact Hq].
Qed.

Lemma interpolate_channel_0 c1 c2 : is_u8 c1 -> interpolate_channel c1 c2 0 = c1.
Proof.
  unfold is_u8, interpolate_channel. intros H1.
  change (wrap16 (255 - 0)) with 255. change (wrap16 0) with 0.
  rewrite Z.mul_0_l, Z.add_0_r, Z.mul_comm, Z.quot_mul by lia.
  apply wrap8_small. exact H1.
Qed.

Lemma interpolate_channel_255 c1 c2 :
  is_u8 c2 -> interpolate_channel c1 c2 255 = c2.
Proof.
  unfold is_u8, interpolate_channel. intros H2.
  change (wrap16 (255 - 255)) with 0. change (wrap16 255) with 255.
  rewrite Z.mul_0_l, Z.add_0_l, Z.mul_comm, Z.quot_mul by lia.
  apply wrap8_small. exact H2.
Qed.

Lemma interpolate_color_0 c1 c2 : rgb_valid c1 -> _interpolate_color c1 c2 0 = c1.
Proof.
  intros (Hr & Hg & Hb). destruct c1 as [r1 g1 b1]. unfold _interpolate_color.
  cbn [r g b] in *. rewrite !interpolate_channel_0 by assumption. reflexivity.
Qed.

Lemma interpolate_color_255 c1 c2 :
  rgb_valid c2 -> _interpolate_color c1 c2 255 = c2.
Proof.
  intros (Hr & Hg & Hb). destruct c2 as [r2 g2 b2]. unfold _interpolate_color.
  cbn [r g b] in *. rewrite !interpolate_channel_255 by assumption. reflexivity.
Qed.

(** C10: for 8-bit endpoint colours [_interpolate_color] returns
    [colour_1] at t = 0 and [colour_2] at t = 255, and for every t in
    [0, 255] each output channel lies between the smaller and the
    larger of the two endpoint channels. *)
Theorem interpolate_color_endpoints_and_bounds c1 c2 :
  rgb_valid c1 -> rgb_valid c2 ->
  _interpolate_color c1 c2 0 = c1 /\
  _interpolate_color c1 c2 255 = c2 /\
  forall t, 0 <= t <= 255 ->
    let c := _interpolate_color c1 c2 t in
    Z.min (r c1) (r c2) <= r c <= Z.max (r c1) (r c2) /\
    Z.min (g c1) (g c2) <= g c <= Z.max (g c1) (g c2) /\
    Z.min (b c1) (b c2) <= b c <= Z.max (b c1) (b c2).
Proof.
  intros H1 H2.
  split; [apply interpolate_color_0; exact H1 |].
  split; [apply interpolate_color_255; exact H2 |].
  destruct H1 as (Hr1 & Hg1 & Hb1), H2 as (Hr2 & Hg2 & Hb2).
  intros t Ht c. subst c. cbn [_interpolate_color r g b].
  repeat split; apply interpolate_channel_exact; assumption.
Qed.

Lemma palette_valid : colours_valid Examples.palette.
Proof. unfold colours_valid, rgb_valid, is_u8. cbn. lia. Qed.

Lemma interpolate_color_witness :
  _interpolate_color (mk_rgb 255 0 0) (mk_rgb 94 94 0) 0 = mk_rgb 255 0 0 /\
  _interpolate_color (mk_rgb 255 0 0) (mk_rgb 94 94 0) 255 = mk_rgb 94 94 0 /\
  Z.min 255 94 <= r (_interpolate_color (mk_rgb 255 0 0) (mk_rgb 94 94 0) 173)
    <= Z.max 255 94.
Proof.
  assert (H1 : rgb_valid (mk_rgb 255 0 0))
    by (unfold rgb_valid, is_u8; cbn; lia).
  assert (H2 : rgb_valid (mk_rgb 94 94 0))
    by (unfold rgb_valid, is_u8; cbn; lia).
  destruct (interpolate_color_endpoints_and_bounds _ _ H1 H2) as (E0 & E1 & B).
  split; [exact E0 | split; [exact E1 |]].
  apply (B 173). lia.
Defined.

(** C7: at the exact range boundaries the colour computed by
    [_compute_display_levels] is an endpoint colour: RED at 0, YELLOW at
    25, GREEN at 50, TURQUOISE at 150 and BLUE at 175 (t evaluates to 0
    at distance 0 and to 255 at the upper end of each range). *)
Theorem boundary_colours k :
  colours_valid k ->
  _compute_display_levels k 0 = COLOR_RED k /\
  _compute_display_levels k 25 = COLOR_YELLOW k /\
  _compute_display_levels k 50 = COLOR_GREEN k /\
  _compute_display_levels k 150 = COLOR_TURQUOISE k /\
  _compute_display_levels k 175 = COLOR_BLUE k /\
  range_t 0 DANGER_MIN_CM WARNING_MIN_CM = 0 /\
  range_t 25 DANGER_MIN_CM WARNING_MIN_CM = 255 /\
  range_t 50 WARNING_MIN_CM NO_PROBLEM_MIN_CM = 255 /\
  range_t 150 NO_PROBLEM_MIN_CM INFO_MIN_CM = 255 /\
  range_t 175 INFO_MIN_CM OK_MIN_CM = 255.
Proof.
  intros (Hred & Hyellow & Hgreen & Hturq & Hblue & _).
  change (_compute_display_levels k 0)
    with (_interpolate_color (COLOR_RED k) (COLOR_YELLOW k) 0).
  change (_compute_display_levels k 25)
    with (_interpolate_color (COLOR_RED k) (COLOR_YELLOW k) 255).
  change (_compute_display_levels k 50)
    with (_interpolate_color (COLOR_YELLOW k) (COLOR_GREEN k) 255).
  change (_compute_display_levels k 150)
    with (_interpolate_color (COLOR_GREEN k) (COLOR_TURQUOISE k) 255).
  change (_compute_display_levels k 175)
    with (_interpolate_color (COLOR_TURQUOISE k) (COLOR_BLUE k) 255).
  rewrite interpolate_color_0 by assumption.
  rewrite !interpolate_color_255 by assumption.
  repeat split; reflexivity.
Qed.

Lemma boundary_colours_witness :
  _compute_display_levels Examples.palette 25 = mk_rgb 94 94 0 /\
  _compute_display_levels Examples.palette 150 = mk_rgb 26 89 82.
Proof.
  destruct (boundary_colours Examples.palette palette_valid)
    as (_ & Hy & _ & Ht & _).
  split; [exact Hy | exact Ht].
Defined.

End DisplayProofs.

(** ** Urbanite master FSM *)

Module UrbaniteProofs.
Import Urbanite.

(** The transition table read state by state (first matching row). *)

Ltac fire_in_state H :=
  unfold fsm_urbanite_fire, fsm_trans_urbanite;
  cbn [Fsm.fsm_fire Fsm.orig_state Fsm.guard Fsm.dest_state Fsm.action
       Fsm.run_action];
  rewrite H;
  repeat match goal with
         | |- context [bool_decide (?a = ?b)] =>
             let v := eval vm_compute in (bool_decide (a = b)) in
             change (bool_decide (a = b)) with v
         end;
  cbn [andb]; reflexivity.

Lemma fire_OFF p :
  current_state p = OFF ->
  fsm_urbanite_fire p =
    if check_no_activity p then set_state (do_sleep_off p) SLEEP_WHILE_OFF
    else if check_on p then set_state (do_start_up_measure p) MEASURE
    else p.
Proof. intros H. fire_in_state H. Qed.

Lemma fire_SLEEP_WHILE_OFF p :
  current_state p = SLEEP_WHILE_OFF ->
  fsm_urbanite_fire p =
    if check_activity p then set_state p OFF
    else if check_no_activity p
         then set_state (do_sleep_while_off p) SLEEP_WHILE_OFF
    else p.
Proof. intros H. fire_in_state H. Qed.

Lemma fire_MEASURE p :
  current_state p = MEASURE ->
  fsm_urbanite_fire p =
    if check_pause_display p then set_state (do_pause_display p) MEASURE
    else if check_new_measure p then set_state (do_display_distance p) MEASURE
    else if check_no_activity p
         then set_state (do_sleep_while_measure p) SLEEP_WHILE_ON
    else if check_emergency_on p
         then set_state (do_start_emergency p) EMERGENCY
    else if check_off p then set_state (do_stop_urbanite p) OFF
    else p.
Proof. intros H. fire_in_state H. Qed.

Lemma fire_SLEEP_WHILE_ON p :
  current_state p = SLEEP_WHILE_ON ->
  fsm_urbanite_fire p =
    if check_activity_in_measure p then set_state p MEASURE
    else if check_no_activity p
         then set_state (do_sleep_while_on p) SLEEP_WHILE_ON
    else p.
Proof. intros H. fire_in_state H. Qed.

Lemma fire_EMERGENCY p :
  current_state p = EMERGENCY ->
  fsm_urbanite_fire p =
    if check_emergency_off p then set_state (do_stop_emergency p) MEASURE
    else if check_emergency_continue p
         then set_state (do_continue_emergency p) EMERGENCY
    else p.
Proof. intros H. fire_in_state H. Qed.

Lemma current_state_set_state p s : current_state (set_state p s) = s.
Proof. reflexivity. Qed.

Lemma check_on_spec p :
  0 <= on_off_press_time_ms p ->
  check_on p = true <-> on_off_press_time_ms p < button_duration p.
Proof.
  unfold check_on, button_duration. intros H0.
  rewrite andb_true_iff, !Z.ltb_lt. lia.
Qed.

Lemma check_emergency_on_spec p :
  0 <= emergency_time_ms p ->
  check_emergency_on p = true <-> emergency_time_ms p < button_duration p.
Proof.
  unfold check_emergency_on, button_duration. intros H0.
  rewrite andb_true_iff, !Z.ltb_lt. lia.
Qed.

Lemma check_emergency_off_spec p :
  0 <= emergency_time_ms p ->
  check_emergency_off p = true <-> emergency_time_ms p < button_duration p.
Proof. exact (check_emergency_on_spec p). Qed.

(** *** Power on *)

(** C3 (amended): in OFF with at least one leaf active, fire goes to
    MEASURE iff the press duration is strictly greater than
    [on_off_ms] (there is no upper bound: [check_on] does not look at
    [emergency_ms]); when it does, the duration is reset, the
    ultrasound is started and the display is enabled; otherwise the
    FSM is left as it was. *)
Theorem off_to_measure p :
  current_state p = OFF -> check_activity p = true ->
  0 <= on_off_press_time_ms p ->
  let p' := fsm_urbanite_fire p in
  (current_state p' = MEASURE <-> on_off_press_time_ms p < button_duration p) /\
  (on_off_press_time_ms p < button_duration p ->
     p' = set_state (do_start_up_measure p) MEASURE /\
     button_duration p' = 0 /\
     ultrasound_of p' = Ultrasound.fsm_ultrasound_start (ultrasound_of p) /\
     ultrasound_status p' = true /\
     display_status p' = true) /\
  (button_duration p <= on_off_press_time_ms p -> p' = p).
Proof.
  intros Hst Hact Hpos p'. subst p'.
  rewrite (fire_OFF p Hst). unfold check_no_activity. rewrite Hact.
  cbn [negb]. pose proof (check_on_spec p Hpos) as Hon.
  destruct (check_on p) eqn:Hc.
  - assert (Hd : on_off_press_time_ms p < button_duration p)
      by (apply Hon; reflexivity).
    split; [split; [intros _; exact Hd | intros _; reflexivity] |].
    split; [| intros Hle; lia].
    intros _. destruct p. repeat split.
  - assert (Hd : ~ on_off_press_time_ms p < button_duration p).
    { intros Hlt. apply Hon in Hlt. discriminate Hlt. }
    split; [split; [rewrite Hst; discriminate | intros; contradiction] |].
    split; [intros; contradiction | reflexivity].
Qed.

Lemma off_to_measure_witness :
  current_state (fsm_urbanite_fire (Examples.off_after_press 1200)) = MEASURE
  <-> 1000 < 1200.
Proof.
  apply (off_to_measure (Examples.off_after_press 1200));
    [reflexivity | reflexivity | vm_compute; discriminate].
Defined.

(** C3, as written, fails in both directions: a 5000 ms press (beyond
    [emergency_ms] = 3000) powers the system on, and a press of exactly
    [on_off_ms] = 1000 does not. *)
Lemma off_to_measure_counterexample :
  (current_state (Examples.off_after_press 5000) = OFF /\
   check_activity (Examples.off_after_press 5000) = true /\
   current_state (fsm_urbanite_fire (Examples.off_after_press 5000)) = MEASURE /\
   ~ (on_off_press_time_ms (Examples.off_after_press 5000)
      <= button_duration (Examples.off_after_press 5000)
      < emergency_time_ms (Examples.off_after_press 5000))) /\
  (current_state (Examples.off_after_press 1000) = OFF /\
   check_activity (Examples.off_after_press 1000) = true /\
   current_state (fsm_urbanite_fire (Examples.off_after_press 1000)) = OFF /\
   on_off_press_time_ms (Examples.off_after_press 1000)
     <= button_duration (Examples.off_after_press 1000)
     < emergency_time_ms (Examples.off_after_press 1000)).
Proof.
  split.
  - repeat split. vm_compute. intros [_ H]. discriminate H.
  - repeat split; vm_compute; discriminate.
Qed.

(** *** Emergency *)

(** C4 (amended): in MEASURE a press strictly longer than
    [emergency_ms] makes fire enter EMERGENCY (duration reset, display
    enabled, ultrasound stopped, both emergency flags set) provided no
    earlier MEASURE row fires (no sample pending, some leaf active); in
    EMERGENCY fire returns to MEASURE iff the press is strictly longer
    than [emergency_ms] (ultrasound restarted, flags cleared, display
    disabled again if paused); a press of at most [emergency_ms] causes
    neither transition. *)
Theorem emergency_transitions p :
  0 <= emergency_time_ms p ->
  let d := button_duration p in
  let p' := fsm_urbanite_fire p in
  (current_state p = MEASURE ->
     (d <= emergency_time_ms p -> current_state p' <> EMERGENCY) /\
     (emergency_time_ms p < d ->
      on_off_press_time_ms p <= emergency_time_ms p ->
      check_new_measure p = false -> check_activity p = true ->
        p' = set_state (do_start_emergency p) EMERGENCY /\
        button_duration p' = 0 /\
        ultrasound_of p' = Ultrasound.fsm_ultrasound_stop (ultrasound_of p) /\
        ultrasound_status p' = false /\
        display_status p' = true /\
        emergency p' = true /\ emergency_aux p' = true)) /\
  (current_state p = EMERGENCY ->
     (current_state p' = MEASURE <-> emergency_time_ms p < d) /\
     (emergency_time_ms p < d ->
        p' = set_state (do_stop_emergency p) MEASURE /\
        button_duration p' = 0 /\
        ultrasound_of p' = Ultrasound.fsm_ultrasound_start (ultrasound_of p) /\
        ultrasound_status p' = true /\
        display_status p' = (if is_paused p then false else display_status p) /\
        emergency p' = false /\ emergency_aux p' = false)).
Proof.
  intros Hpos d p'. subst d p'.
  pose proof (check_emergency_on_spec p Hpos) as Hon.
  pose proof (check_emergency_off_spec p Hpos) as Hoff.
  split; intros Hst.
  - rewrite (fire_MEASURE p Hst). split.
    + intros Hle.
      destruct (check_emergency_on p) eqn:Hc;
        [assert (emergency_time_ms p < button_duration p)
           by (apply Hon; reflexivity); lia |].
      destruct (check_pause_display p), (check_new_measure p),
        (check_no_activity p), (check_off p);
        rewrite ?current_state_set_state, ?Hst; discriminate.
    + intros Hlt Hord Hnew Hact.
      assert (Hpause : check_pause_display p = false).
      { unfold check_pause_display.
        fold (button_duration p).
        destruct (Z.ltb_spec (button_duration p) (on_off_press_time_ms p));
          [lia |]. rewrite andb_false_r. reflexivity. }
      apply Hon in Hlt.
      unfold check_no_activity. rewrite Hpause, Hnew, Hact, Hlt. cbn [negb].
      destruct p. repeat split.
  - rewrite (fire_EMERGENCY p Hst).
    destruct (check_emergency_off p) eqn:Hc.
    + assert (Hd : emergency_time_ms p < button_duration p)
        by (apply Hoff; reflexivity).
      split; [split; [intros _; exact Hd | intros _; reflexivity] |].
      intros _. destruct p as [? ? ? ? ? paused ? ? ? ? ?].
      destruct paused; repeat split.
    + assert (Hd : ~ emergency_time_ms p < button_duration p).
      { intros Hlt. apply Hoff in Hlt. discriminate Hlt. }
      split; [| intros; contradiction].
      split; [| intros; contradiction].
      destruct (check_emergency_continue p);
        rewrite ?current_state_set_state, ?Hst; discriminate.
Qed.

Lemma emergency_transitions_witness :
  (current_state (fsm_urbanite_fire (Examples.measure_after_press 3200))
   = EMERGENCY) /\
  (current_state (fsm_urbanite_fire (Examples.emergency_after_press 3200))
   = MEASURE).
Proof.
  split.
  - destruct (emergency_transitions (Examples.measure_after_press 3200))
      as [Hm _]; [vm_compute; discriminate |].
    destruct (Hm eq_refl) as [_ Henter].
    destruct Henter as [-> _];
      [reflexivity | vm_compute; discriminate | reflexivity | reflexivity |].
    reflexivity.
  - destruct (emergency_transitions (Examples.emergency_after_press 3200))
      as [_ He]; [vm_compute; discriminate |].
    destruct (He eq_refl) as [Hiff _].
    apply Hiff. reflexivity.
Defined.

(** C4, as written, fails at a press of exactly [emergency_ms]: from
    MEASURE (button active, no sample pending) fire stays in MEASURE,
    and from EMERGENCY fire stays in EMERGENCY. *)
Lemma emergency_transitions_counterexample :
  (current_state (Examples.measure_after_press 3000) = MEASURE /\
   emergency_time_ms (Examples.measure_after_press 3000)
     <= button_duration (Examples.measure_after_press 3000) /\
   check_activity (Examples.measure_after_press 3000) = true /\
   check_new_measure (Examples.measure_after_press 3000) = false /\
   current_state (fsm_urbanite_fire (Examples.measure_after_press 3000))
     <> EMERGENCY) /\
  (current_state (Examples.emergency_after_press 3000) = EMERGENCY /\
   emergency_time_ms (Examples.emergency_after_press 3000)
     <= button_duration (Examples.emergency_after_press 3000) /\
   current_state (fsm_urbanite_fire (Examples.emergency_after_press 3000))
     <> MEASURE).
Proof. split; repeat split; vm_compute; discriminate. Qed.

(** *** Display of a new sample *)

(** The row that runs [do_display_distance]. *)
Lemma fire_MEASURE_new_sample p :
  current_state p = MEASURE -> check_pause_display p = false ->
  check_new_measure p = true ->
  fsm_urbanite_fire p = set_state (do_display_distance p) MEASURE.
Proof.
  intros Hst Hpause Hnew. rewrite (fire_MEASURE p Hst), Hpause, Hnew.
  reflexivity.
Qed.



(** *** Sleep and wake-up *)

(** C6 (amended): from SLEEP_WHILE_OFF, if any leaf reports activity
    the next fire returns to OFF; from SLEEP_WHILE_ON the next fire
    returns to MEASURE iff the ultrasound has a new measurement pending
    ([check_activity_in_measure] is [check_new_measure]), and otherwise
    stays in SLEEP_WHILE_ON whatever the leaves report. *)
Theorem sleep_wake p :
  (current_state p = SLEEP_WHILE_OFF -> check_activity p = true ->
     fsm_urbanite_fire p = set_state p OFF) /\
  (current_state p = SLEEP_WHILE_ON ->
     (current_state (fsm_urbanite_fire p) = MEASURE
      <-> check_new_measure p = true) /\
     (check_new_measure p = true -> fsm_urbanite_fire p = set_state p MEASURE) /\
     (check_new_measure p = false ->
        current_state (fsm_urbanite_fire p) = SLEEP_WHILE_ON)).
Proof.
  split.
  - intros Hst Hact. rewrite (fire_SLEEP_WHILE_OFF p Hst), Hact. reflexivity.
  - intros Hst. rewrite (fire_SLEEP_WHILE_ON p Hst).
    unfold check_activity_in_measure.
    destruct (check_new_measure p).
    + repeat split; discriminate.
    + assert (Hstay : current_state
                (if check_no_activity p
                 then set_state (do_sleep_while_on p) SLEEP_WHILE_ON
                 else p) = SLEEP_WHILE_ON).
      { destruct (check_no_activity p); [reflexivity | exact Hst]. }
      split; [split; [rewrite Hstay; discriminate | discriminate] |].
      split; [discriminate | intros _; exact Hstay].
Qed.

Lemma sleep_wake_witness :
  fsm_urbanite_fire
    (set_state (Examples.off_after_press 1200) SLEEP_WHILE_OFF)
  = set_state (set_state (Examples.off_after_press 1200) SLEEP_WHILE_OFF) OFF
  /\ current_state (fsm_urbanite_fire Examples.asleep_on_button_down)
     = SLEEP_WHILE_ON.
Proof.
  split.
  - apply (sleep_wake (set_state (Examples.off_after_press 1200) SLEEP_WHILE_OFF));
      reflexivity.
  - apply (sleep_wake Examples.asleep_on_button_down); reflexivity.
Defined.

(** C6, as written, fails for SLEEP_WHILE_ON: the system went to sleep
    from MEASURE, the button then left [BUTTON_RELEASED] (a leaf is
    active) with no sample pending, and the next fire stays in
    SLEEP_WHILE_ON. *)
Lemma sleep_wake_counterexample :
  current_state Examples.armed_quiet = MEASURE /\
  Examples.asleep_on = fsm_urbanite_fire Examples.armed_quiet /\
  current_state Examples.asleep_on_button_down = SLEEP_WHILE_ON /\
  Button.fsm_button_check_activity
    (p_fsm_button Examples.asleep_on_button_down) = true /\
  check_activity Examples.asleep_on_button_down = true /\
  current_state (fsm_urbanite_fire Examples.asleep_on_button_down)
    = SLEEP_WHILE_ON /\
  current_state (fsm_urbanite_fire Examples.asleep_on_button_down)
    <> MEASURE.
Proof. repeat split. vm_compute. discriminate. Qed.

End UrbaniteProofs.

(** ** Ultrasound FSM: interrupts, transitions and the sample ring *)

Module UltrasoundFsmProofs.
Import Ultrasound UltrasoundFsm Spec WordFacts DistanceProofs MedianProofs.

Ltac ultrasound_fire_in H :=
  unfold fsm_ultrasound_fire, fsm_trans_ultrasound;
  cbn [Fsm.fsm_fire Fsm.orig_state Fsm.guard Fsm.dest_state Fsm.action
       Fsm.run_action];
  rewrite H;
  repeat match goal with
         | |- context [bool_decide (?a = ?b)] =>
             let v := eval vm_compute in (bool_decide (a = b)) in
             change (bool_decide (a = b)) with v
         end;
  cbn [andb]; reflexivity.

Lemma fire_WAIT_START st :
  get_state st = WAIT_START ->
  fsm_ultrasound_fire st =
    if check_on st then set_state (do_start_measurement st) TRIGGER_START
    else st.
Proof. intros H. ultrasound_fire_in H. Qed.

Lemma fire_TRIGGER_START st :
  get_state st = TRIGGER_START ->
  fsm_ultrasound_fire st =
    if check_trigger_end st then set_state (do_stop_trigger st) WAIT_ECHO_START
    else st.
Proof. intros H. ultrasound_fire_in H. Qed.

Lemma fire_WAIT_ECHO_START st :
  get_state st = WAIT_ECHO_START ->
  fsm_ultrasound_fire st =
    if check_echo_init st then set_state st WAIT_ECHO_END else st.
Proof. intros H. ultrasound_fire_in H. Qed.

Lemma fire_WAIT_ECHO_END st :
  get_state st = WAIT_ECHO_END ->
  fsm_ultrasound_fire st =
    if check_echo_received st then set_state (do_set_distance st) SET_DISTANCE
    else st.
Proof. intros H. ultrasound_fire_in H. Qed.

Lemma fire_SET_DISTANCE st :
  get_state st = SET_DISTANCE ->
  fsm_ultrasound_fire st =
    if check_new_measurement st
    then set_state (do_start_new_measurement st) TRIGGER_START
    else if check_off st then set_state (do_stop_measurement st) WAIT_START
    else st.
Proof. intros H. ultrasound_fire_in H. Qed.

(** [do_set_distance] only reads the ticks and the overflow count of the
    mirror: it is the capture step of the capture it finds there. *)
Lemma do_set_distance_as_capture hw s :
  do_set_distance (hw, s)
  = capture_step (hw, s)
      (mk_capture (echo_init_tick hw) (echo_end_tick hw) (echo_overflows hw)).
Proof. reflexivity. Qed.

(** The mirror after two capture interrupts on reset ticks. *)
Lemma two_captures hw u1 u2 a b :
  echo_init_tick hw = 0 -> echo_end_tick hw = 0 -> a <> 0 ->
  0 <= echo_overflows hw < 2 ^ 32 - 2 ->
  TIM2_IRQHandler u2 true b (TIM2_IRQHandler u1 true a hw)
  = echo_captured
      (mk_capture a b (echo_overflows hw + Z.b2z u1 + Z.b2z u2)) hw.
Proof.
  intros Hi He Ha Hov. destruct hw as [rc te tr et it ov tl el c2 c3 c5 q5].
  cbn [echo_init_tick echo_end_tick echo_overflows] in *. subst it et.
  unfold TIM2_IRQHandler, echo_captured.
  destruct u1, u2;
    cbn -[wrap32 Z.add]; rewrite ?wrap32_small by lia;
    destruct (Z.eqb_spec a 0) as [|_]; try contradiction;
    cbn -[wrap32 Z.add]; rewrite ?wrap32_small by lia;
    unfold port_ultrasound_set_echo_received, port_ultrasound_set_echo_end_tick,
      port_ultrasound_set_echo_init_tick, port_ultrasound_set_echo_overflows;
    cbn [echo_received trigger_end trigger_ready echo_end_tick echo_init_tick
         echo_overflows trigger_line echo_line tim2_cen tim3_cen tim5_cen
         tim5_irq Z.b2z];
    f_equal; lia.
Qed.

(** X1: after the echo ticks were reset, two capture interrupts with a
    first tick other than 0 leave the pair (first, second) in the
    mirror, raise [echo_received] and add one overflow per interrupt
    that came with the update flag; nothing else in the mirror moves,
    and the FSM guard on the echo sees it. *)
Theorem capture_interrupts_pair hw s u1 u2 a b :
  echo_init_tick hw = 0 -> echo_end_tick hw = 0 -> a <> 0 ->
  0 <= echo_overflows hw < 2 ^ 32 - 2 ->
  let hw2 := TIM2_IRQHandler u2 true b (TIM2_IRQHandler u1 true a hw) in
  hw2 = echo_captured
          (mk_capture a b (echo_overflows hw + Z.b2z u1 + Z.b2z u2)) hw /\
  echo_received (TIM2_IRQHandler u1 true a hw) = echo_received hw /\
  check_echo_received (hw2, s) = true.
Proof.
  intros Hi He Ha Hov hw2. subst hw2.
  rewrite two_captures by assumption.
  split; [reflexivity |]. split; [| reflexivity].
  destruct hw as [rc te tr et it ov tl el c2 c3 c5 q5].
  cbn [echo_init_tick echo_end_tick] in Hi, He. subst it et.
  unfold TIM2_IRQHandler. destruct u1; reflexivity.
Qed.

Lemma capture_interrupts_pair_witness :
  TIM2_IRQHandler true true 1155
    (TIM2_IRQHandler false true 65000 Init.port_ultrasound_init)
  = echo_captured (mk_capture 65000 1155 1) Init.port_ultrasound_init.
Proof.
  apply (capture_interrupts_pair Init.port_ultrasound_init
           Init.fsm_ultrasound_init false true 65000 1155);
    [reflexivity | reflexivity | discriminate |].
  vm_compute. split; [discriminate | reflexivity].
Defined.

(** X2: a first edge captured at tick 0 is not told apart from "no edge
    yet": the next capture is taken as the first edge again and
    [echo_received] is not raised. *)
Theorem capture_at_tick_zero_is_lost hw s u1 u2 b :
  echo_init_tick hw = 0 -> echo_end_tick hw = 0 ->
  let hw2 := TIM2_IRQHandler u2 true b (TIM2_IRQHandler u1 true 0 hw) in
  echo_init_tick hw2 = b /\ echo_end_tick hw2 = 0 /\
  echo_received hw2 = echo_received hw /\
  check_echo_init (TIM2_IRQHandler u1 true 0 hw, s) = false.
Proof.
  intros Hi He. destruct hw as [rc te tr et it ov tl el c2 c3 c5 q5].
  cbn [echo_init_tick echo_end_tick] in *. subst it et.
  unfold TIM2_IRQHandler, check_echo_init.
  destruct u1, u2; cbn -[wrap32]; repeat split.
Qed.

Lemma capture_at_tick_zero_is_lost_witness :
  echo_received
    (TIM2_IRQHandler false true 700
       (TIM2_IRQHandler false true 0 Init.port_ultrasound_init)) = false.
Proof.
  apply (capture_at_tick_zero_is_lost Init.port_ultrasound_init
           Init.fsm_ultrasound_init false false 700); reflexivity.
Defined.

(** X3: the echo phase end to end.  From WAIT_ECHO_START with the
    ticks reset, a first capture (tick other than 0) takes the FSM to
    WAIT_ECHO_END on its next fire, and the second capture makes the
    following fire run [do_set_distance] on exactly that pair of ticks
    and the overflows counted meanwhile, ending in SET_DISTANCE. *)
Theorem echo_phase hw s u1 u2 a b :
  current_state s = WAIT_ECHO_START ->
  echo_init_tick hw = 0 -> echo_end_tick hw = 0 -> 0 < a ->
  0 <= echo_overflows hw < 2 ^ 32 - 2 ->
  let st1 := fsm_ultrasound_fire (TIM2_IRQHandler u1 true a hw, s) in
  let st2 := fsm_ultrasound_fire
               (TIM2_IRQHandler u2 true b (fst st1), snd st1) in
  get_state st1 = WAIT_ECHO_END /\
  st2 = set_state
          (capture_step (hw, s)
             (mk_capture a b (echo_overflows hw + Z.b2z u1 + Z.b2z u2)))
          SET_DISTANCE.
Proof.
  intros Hst Hi He Ha Hov st1 st2.
  assert (H1 : st1 = set_state (TIM2_IRQHandler u1 true a hw, s) WAIT_ECHO_END).
  { subst st1. rewrite fire_WAIT_ECHO_START by exact Hst.
    unfold check_echo_init, TIM2_IRQHandler.
    destruct hw as [rc te tr et it ov tl el c2 c3 c5 q5].
    cbn [echo_init_tick echo_end_tick] in Hi, He. subst it et.
    destruct u1; cbn -[wrap32];
      (destruct (Z.ltb_spec 0 a); [reflexivity | lia]). }
  split; [rewrite H1; reflexivity |].
  subst st2. rewrite H1. cbn [set_state fst snd].
  rewrite two_captures by (assumption || lia).
  rewrite fire_WAIT_ECHO_END by reflexivity.
  destruct s as [st0 d en nm arr idx].
  unfold check_echo_received, capture_step, do_set_distance.
  cbn [fst snd echo_captured port_ultrasound_get_echo_received echo_received
       distance_idx].
  destruct (FSM_ULTRASOUND_NUM_MEASUREMENTS <=? wrap32 (idx + 1));
    reflexivity.
Qed.

Lemma echo_phase_witness :
  get_state
    (fsm_ultrasound_fire
       (TIM2_IRQHandler false true 100 Init.port_ultrasound_init,
        mk_us WAIT_ECHO_START 0 true false [0; 0; 0; 0; 0] 0))
  = WAIT_ECHO_END.
Proof.
  apply (echo_phase Init.port_ultrasound_init
           (mk_us WAIT_ECHO_START 0 true false [0; 0; 0; 0; 0] 0)
           false false 100 1849);
    [reflexivity | reflexivity | reflexivity | reflexivity |].
  vm_compute. split; [discriminate | reflexivity].
Defined.

(** X4: the trigger phase.  An enabled sensor in WAIT_START with
    [trigger_ready] raises the trigger line, consumes [trigger_ready]
    and starts the three timers; once the trigger-timer interrupt has
    set [trigger_end], the next fire lowers the line, stops the trigger
    timer, clears [trigger_end] and waits for the echo with the capture
    timer still running.  The FSM record itself is only moved from
    state to state. *)
Theorem trigger_phase hw s :
  current_state s = WAIT_START -> status s = true -> trigger_ready hw = true ->
  let st1 := fsm_ultrasound_fire (hw, s) in
  let st2 := fsm_ultrasound_fire (TIM3_IRQHandler (fst st1), snd st1) in
  (get_state st1 = TRIGGER_START /\
   trigger_line (fst st1) = true /\ trigger_ready (fst st1) = false /\
   tim2_cen (fst st1) = true /\ tim3_cen (fst st1) = true /\
   tim5_cen (fst st1) = true) /\
  (get_state st2 = WAIT_ECHO_START /\
   trigger_line (fst st2) = false /\ trigger_end (fst st2) = false /\
   tim3_cen (fst st2) = false /\ tim2_cen (fst st2) = true /\
   tim5_cen (fst st2) = true) /\
  snd st2 = snd (set_state (hw, s) WAIT_ECHO_START).
Proof.
  intros Hst Hen Hrdy st1 st2.
  assert (H1 : st1 = set_state (do_start_measurement (hw, s)) TRIGGER_START).
  { subst st1. rewrite fire_WAIT_START by exact Hst.
    unfold check_on. cbn [fst snd]. unfold port_ultrasound_get_trigger_ready.
    rewrite Hrdy, Hen. reflexivity. }
  subst st2. rewrite H1.
  rewrite fire_TRIGGER_START by reflexivity.
  destruct s as [st0 d en nm arr idx]. repeat split.
Qed.

Lemma trigger_phase_witness :
  get_state
    (fsm_ultrasound_fire
       (Init.port_ultrasound_init,
        mk_us WAIT_START 0 true false [0; 0; 0; 0; 0] 0))
  = TRIGGER_START.
Proof.
  apply (trigger_phase Init.port_ultrasound_init
           (mk_us WAIT_START 0 true false [0; 0; 0; 0; 0] 0)); reflexivity.
Defined.

(** X5: stopping the sensor does not withdraw a pending cycle.  In
    SET_DISTANCE the restart row comes before the stop row and
    [fsm_ultrasound_stop] leaves [trigger_ready] as it is, so with
    [trigger_ready] set the fire after a stop still raises the trigger
    line and starts the timers of a sensor whose status is false; only
    without [trigger_ready] does the FSM go to WAIT_START. *)
Theorem stop_keeps_pending_cycle hw s :
  current_state s = SET_DISTANCE ->
  let st := fsm_ultrasound_fire (fsm_ultrasound_stop (hw, s)) in
  status (snd st) = false /\
  (trigger_ready hw = true ->
     get_state st = TRIGGER_START /\ trigger_line (fst st) = true /\
     tim2_cen (fst st) = true /\ tim3_cen (fst st) = true /\
     tim5_cen (fst st) = true) /\
  (trigger_ready hw = false ->
     get_state st = WAIT_START /\ trigger_line (fst st) = false /\
     tim2_cen (fst st) = false /\ tim3_cen (fst st) = false /\
     tim5_cen (fst st) = false).
Proof.
  intros Hst st. subst st.
  rewrite fire_SET_DISTANCE by exact Hst.
  unfold check_new_measurement, check_off, fsm_ultrasound_stop.
  cbn [fst snd status]. unfold port_ultrasound_get_trigger_ready.
  destruct hw as [rc te tr et it ov tl el c2 c3 c5 q5].
  cbn [trigger_ready port_ultrasound_stop_ultrasound
       port_ultrasound_reset_echo_ticks
       port_ultrasound_stop_new_measurement_timer
       port_ultrasound_stop_echo_timer port_ultrasound_stop_trigger_timer
       echo_received trigger_end echo_end_tick echo_init_tick echo_overflows
       trigger_line echo_line tim2_cen tim3_cen tim5_cen tim5_irq].
  destruct tr; cbn [negb]; repeat split; discriminate.
Qed.

Lemma stop_keeps_pending_cycle_witness :
  get_state
    (fsm_ultrasound_fire
       (fsm_ultrasound_stop
          (Init.port_ultrasound_init,
           mk_us SET_DISTANCE 30 true false [28; 29; 30; 31; 200] 0)))
  = TRIGGER_START.
Proof.
  apply (stop_keeps_pending_cycle Init.port_ultrasound_init
           (mk_us SET_DISTANCE 30 true false [28; 29; 30; 31; 200] 0));
    reflexivity.
Defined.



(** *** The sample ring *)

Lemma raw_of_sample c : sample (raw_of c).
Proof.
  unfold sample, raw_of.
  apply (raw_distance_range (cap_init c) (cap_end c) (cap_overflows c)).
Qed.

Lemma sample_small x : sample x -> small x.
Proof. unfold sample, small. lia. Qed.

Lemma capture_step_ring hw s c :
  ring_inv s -> ring_inv (snd (capture_step (hw, s) c)).
Proof.
  intros (Hwin & Hall & Hd).
  split; [apply StartProofs.capture_step_inv; exact Hwin |].
  destruct s as [st0 d en nm arr idx].
  destruct Hwin as [Hidx Hlen]. unfold FSM_ULTRASOUND_NUM_MEASUREMENTS in Hidx.
  cbn [distance_idx distance_arr distance_cm] in *.
  destruct (Z.eq_dec idx 4) as [-> | Hne].
  - rewrite capture_step_full by reflexivity.
    cbn [snd distance_arr distance_cm].
    assert (Hs : Forall sample (qsort _compare (<[4%nat := raw_of c]> arr))).
    { eapply Permutation_Forall; [symmetry; apply qsort_perm |].
      apply Forall_insert; [exact Hall | apply raw_of_sample]. }
    split; [exact Hs |].
    unfold aget. eapply Forall_nth; [exact Hs |].
    rewrite qsort_length, length_insert, Hlen. cbn. lia.
  - rewrite capture_step_partial by lia.
    cbn [snd distance_arr distance_cm].
    split; [| exact Hd].
    apply Forall_insert; [exact Hall | apply raw_of_sample].
Qed.

Lemma ring_inv_set_state st x : ring_inv (snd (set_state st x)) <-> ring_inv (snd st).
Proof. destruct st as [hw [st0 d en nm arr idx]]. reflexivity. Qed.

Lemma fire_ring hw s :
  ring_inv s -> ring_inv (snd (fsm_ultrasound_fire (hw, s))).
Proof.
  intros Hinv. destruct (current_state s) eqn:Hst.
  - rewrite fire_WAIT_START by exact Hst.
    destruct (check_on (hw, s)); [apply ring_inv_set_state |]; exact Hinv.
  - rewrite fire_TRIGGER_START by exact Hst.
    destruct (check_trigger_end (hw, s)); [apply ring_inv_set_state |];
      exact Hinv.
  - rewrite fire_WAIT_ECHO_START by exact Hst.
    destruct (check_echo_init (hw, s)); [apply ring_inv_set_state |];
      exact Hinv.
  - rewrite fire_WAIT_ECHO_END by exact Hst.
    destruct (check_echo_received (hw, s)); [| exact Hinv].
    apply ring_inv_set_state. rewrite do_set_distance_as_capture.
    apply capture_step_ring. exact Hinv.
  - rewrite fire_SET_DISTANCE by exact Hst.
    destruct (check_new_measurement (hw, s));
      [apply ring_inv_set_state; exact Hinv |].
    destruct (check_off (hw, s)); [apply ring_inv_set_state |]; exact Hinv.
Qed.

Lemma start_ring hw s :
  ring_inv s -> ring_inv (snd (fsm_ultrasound_start (hw, s))).
Proof.
  intros ((Hidx & Hlen) & Hall & Hd). destruct s as [st0 d en nm arr idx].
  unfold ring_inv, window_inv, sample, FSM_ULTRASOUND_NUM_MEASUREMENTS in *.
  cbn in *. repeat split; try assumption; lia.
Qed.

Lemma stop_ring hw s :
  ring_inv s -> ring_inv (snd (fsm_ultrasound_stop (hw, s))).
Proof. intros Hinv. destruct s as [st0 d en nm arr idx]. exact Hinv. Qed.

Lemma get_distance_ring s :
  ring_inv s -> ring_inv (snd (fsm_ultrasound_get_distance s)).
Proof. intros Hinv. destruct s as [st0 d en nm arr idx]. exact Hinv. Qed.

Lemma fire_keeps_status st :
  status (snd (fsm_ultrasound_fire st)) = status (snd st).
Proof.
  destruct st as [hw s]. destruct (current_state s) eqn:Hst.
  - rewrite fire_WAIT_START by exact Hst. destruct (check_on _); reflexivity.
  - rewrite fire_TRIGGER_START by exact Hst.
    destruct (check_trigger_end _); reflexivity.
  - rewrite fire_WAIT_ECHO_START by exact Hst.
    destruct (check_echo_init _); reflexivity.
  - rewrite fire_WAIT_ECHO_END by exact Hst.
    destruct (check_echo_received _); [| reflexivity].
    unfold do_set_distance. cbn [set_state snd status].
    destruct (FSM_ULTRASOUND_NUM_MEASUREMENTS <=? _); reflexivity.
  - rewrite fire_SET_DISTANCE by exact Hst.
    destruct (check_new_measurement _); [reflexivity |].
    destruct (check_off _); reflexivity.
Qed.

(** X7: the ring invariant (five cells, index inside, every cell and
    the published distance a raw sample below 2^27) is kept by a fire
    of the ultrasound FSM, by start, by stop and by reading the
    distance; under it the distance passes unchanged through the
    [uint32_t] to [int32_t] conversion of the display. *)
Theorem ring_inv_preserved hw s :
  ring_inv s ->
  ring_inv (snd (fsm_ultrasound_fire (hw, s))) /\
  ring_inv (snd (fsm_ultrasound_start (hw, s))) /\
  ring_inv (snd (fsm_ultrasound_stop (hw, s))) /\
  ring_inv (snd (fsm_ultrasound_get_distance s)) /\
  forall disp,
    Display.distance_cm
      (Display.fsm_display_set_distance disp (distance_cm s))
    = distance_cm s.
Proof.
  intros Hinv. split; [apply fire_ring; exact Hinv |].
  split; [apply start_ring; exact Hinv |].
  split; [apply stop_ring; exact Hinv |].
  split; [apply get_distance_ring; exact Hinv |].
  destruct Hinv as (_ & _ & Hd). intros disp.
  cbn [Display.fsm_display_set_distance Display.distance_cm].
  apply to_int32_small. unfold sample in Hd. lia.
Qed.

Lemma ring_inv_init : ring_inv Init.fsm_ultrasound_init.
Proof.
  unfold ring_inv, window_inv, sample. cbn.
  repeat split; try lia. repeat constructor; lia.
Qed.

Lemma ring_inv_preserved_witness :
  ring_inv
    (snd (fsm_ultrasound_fire
            (Init.port_ultrasound_init, Init.fsm_ultrasound_init))).
Proof.
  apply (ring_inv_preserved Init.port_ultrasound_init Init.fsm_ultrasound_init).
  unfold ring_inv, window_inv, sample. cbn.
  repeat split; try lia. repeat constructor; lia.
Defined.

(** A whole window, from an empty ring: the final record. *)
Lemma feed_window hw s c1 c2 c3 c4 c5 :
  distance_idx s = 0 -> length (distance_arr s) = 5%nat ->
  let raws := map raw_of [c1; c2; c3; c4; c5] in
  snd (feed (hw, s) [c1; c2; c3; c4; c5])
  = mk_us (current_state s) (aget (qsort _compare raws) 2) (status s) true
          (qsort _compare raws) 0.
Proof.
  destruct s as [st0 d en nm arr idx]. cbn [distance_idx distance_arr].
  intros -> Hlen.
  destruct arr as [| x0 [| x1 [| x2 [| x3 [| x4 [| ? ?]]]]]];
    try discriminate Hlen.
  unfold feed. cbn [foldl]. repeat window_step. reflexivity.
Qed.

Lemma is_median_perm m l l' : Permutation l l' -> is_median m l -> is_median m l'.
Proof.
  intros Hp (Hin & Hlo & Hhi). unfold is_median.
  rewrite <- (count_if_perm _ _ _ Hp), <- (count_if_perm _ _ _ Hp).
  rewrite <- (Permutation_length Hp), <- Hp. auto.
Qed.

Lemma window_median hw s c1 c2 c3 c4 c5 :
  distance_idx s = 0 -> length (distance_arr s) = 5%nat ->
  is_median (distance_cm (snd (feed (hw, s) [c1; c2; c3; c4; c5])))
            (map raw_of [c1; c2; c3; c4; c5]).
Proof.
  intros Hidx Hlen. rewrite feed_window by assumption.
  cbn [distance_cm]. apply middle_is_median; [reflexivity |].
  cbn [map]. repeat constructor; apply sample_small, raw_of_sample.
Qed.

(** X8: the published distance does not depend on the order in which
    the five samples of a window arrive, nor on what the ring, the
    mirror or the rest of the record held before. *)
Theorem median_order_independent hw s hw' s' cs cs' :
  distance_idx s = 0 -> length (distance_arr s) = 5%nat ->
  distance_idx s' = 0 -> length (distance_arr s') = 5%nat ->
  length cs = 5%nat -> Permutation cs cs' ->
  distance_cm (snd (feed (hw, s) cs)) = distance_cm (snd (feed (hw', s') cs')).
Proof.
  intros Hi Hl Hi' Hl' Hn Hp.
  pose proof (Permutation_length Hp) as Hn'. rewrite Hn in Hn'.
  destruct cs as [| c1 [| c2 [| c3 [| c4 [| c5 [| ? ?]]]]]];
    try discriminate Hn.
  destruct cs' as [| d1 [| d2 [| d3 [| d4 [| d5 [| ? ?]]]]]];
    try discriminate Hn'.
  eapply is_median_unique.
  - apply window_median; assumption.
  - eapply is_median_perm; [| apply window_median; assumption].
    symmetry. apply Permutation_map. exact Hp.
Qed.

Lemma median_order_independent_witness :
  distance_cm
    (snd (feed (Init.port_ultrasound_init, Init.fsm_ultrasound_init)
            Examples.five_captures))
  = distance_cm
      (snd (feed (Init.port_ultrasound_init, Init.fsm_ultrasound_init)
              (rev Examples.five_captures))).
Proof.
  apply median_order_independent;
    [reflexivity | reflexivity | reflexivity | reflexivity | reflexivity |].
  apply Permutation_rev.
Defined.

Lemma count_within_above lo hi m l :
  m < lo -> (count_within lo hi l <= count_if (fun x => (m <? x)%Z) l)%nat.
Proof.
  intros Hm. unfold count_within.
  induction l as [| x l IH]; simpl; [lia |].
  destruct (Z.leb_spec lo x), (Z.leb_spec x hi), (Z.ltb_spec m x);
    simpl; lia.
Qed.

Lemma count_within_below lo hi m l :
  hi < m -> (count_within lo hi l <= count_if (fun x => (x <? m)%Z) l)%nat.
Proof.
  intros Hm. unfold count_within.
  induction l as [| x l IH]; simpl; [lia |].
  destruct (Z.leb_spec lo x), (Z.leb_spec x hi), (Z.ltb_spec x m);
    simpl; lia.
Qed.

(** X9: outlier rejection.  If at least three of the five raw samples
    of a window lie in [[lo, hi]], so does the published distance,
    whatever the other two are. *)
Theorem median_rejects_outliers hw s c1 c2 c3 c4 c5 lo hi :
  distance_idx s = 0 -> length (distance_arr s) = 5%nat ->
  (3 <= count_within lo hi (map raw_of [c1; c2; c3; c4; c5]))%nat ->
  lo <= distance_cm (snd (feed (hw, s) [c1; c2; c3; c4; c5])) <= hi.
Proof.
  intros Hidx Hlen Hcount.
  destruct (window_median hw s c1 c2 c3 c4 c5 Hidx Hlen) as (_ & Hlo & Hhi).
  set (m := distance_cm (snd (feed (hw, s) [c1; c2; c3; c4; c5]))) in *.
  set (l := map raw_of [c1; c2; c3; c4; c5]) in *.
  assert (Hl : length l = 5%nat) by reflexivity.
  rewrite Hl in Hlo, Hhi.
  split.
  - destruct (Z_lt_le_dec m lo) as [Hlt | Hge]; [| exact Hge].
    pose proof (count_within_above lo hi m l Hlt). lia.
  - destruct (Z_lt_le_dec hi m) as [Hlt | Hge]; [| exact Hge].
    pose proof (count_within_below lo hi m l Hlt). lia.
Qed.

Lemma median_rejects_outliers_witness :
  28 <= distance_cm
          (snd (feed (Init.port_ultrasound_init, Init.fsm_ultrasound_init)
                  Examples.five_captures)) <= 31.
Proof.
  apply (median_rejects_outliers Init.port_ultrasound_init
           Init.fsm_ultrasound_init
           (mk_capture 100 1849 0) (mk_capture 100 1733 0)
           (mk_capture 100 11760 0) (mk_capture 65000 1155 1)
           (mk_capture 100 1908 0) 28 31);
    [reflexivity | reflexivity | vm_compute; lia].
Defined.

(** X10: a longer echo never gives a smaller distance: the raw sample
    is monotone in the elapsed time, as long as it fits 32 bits. *)
Theorem raw_distance_monotone c c' :
  0 <= elapsed_us (cap_init c) (cap_end c) (cap_overflows c) ->
  elapsed_us (cap_init c) (cap_end c) (cap_overflows c)
    <= elapsed_us (cap_init c') (cap_end c') (cap_overflows c') ->
  elapsed_us (cap_init c') (cap_end c') (cap_overflows c') < 2 ^ 32 ->
  raw_of c <= raw_of c'.
Proof.
  intros H0 Hle Hlt. unfold raw_of. rewrite !raw_distance_mod.
  rewrite !Z.mod_small by lia.
  apply Z.div_le_mono; lia.
Qed.

Lemma raw_distance_monotone_witness :
  raw_of (mk_capture 100 1733 0) <= raw_of (mk_capture 65000 1155 1).
Proof.
  apply raw_distance_monotone; vm_compute;
    first [discriminate | reflexivity].
Defined.

End UltrasoundFsmProofs.

(** ** Display FSM and PWM port *)

Module DisplayFsmProofs.
Import Display DisplayFsm WordFacts DisplayProofs.

Ltac cases_on_bounds :=
  repeat match goal with
         | |- context [?a <=? ?b] => destruct (Z.leb_spec a b)
         | |- context [?a <? ?b] => destruct (Z.ltb_spec a b)
         end;
  cbn [andb]; try lia.

(** The interpolation parameter of a range of width at most 255: no
    8-bit cast wraps. *)
Lemma range_t_exact d lo hi :
  lo <= d <= hi -> 0 < hi - lo <= 255 ->
  range_t d lo hi = (d - lo) * 255 / (hi - lo) /\
  0 <= range_t d lo hi <= 255.
Proof.
  intros Hd Hw. unfold range_t.
  rewrite (wrap8_small (d - lo)) by lia.
  rewrite Z.quot_div_nonneg by lia.
  assert (Hq : 0 <= (d - lo) * 255 / (hi - lo) <= 255).
  { split.
    - apply Z.div_pos; lia.
    - apply Z.div_le_upper_bound; nia. }
  rewrite wrap8_small by lia. split; [reflexivity | exact Hq].
Qed.

(** X11: inside each of the four graded ranges the colour is the
    interpolation of the two endpoint colours at
    t = floor((d - lo) * 255 / (hi - lo)), a value of [[0, 255]] that
    grows with the distance. *)
Theorem graded_ranges k d :
  (0 <= d <= 25 ->
     _compute_display_levels k d
     = _interpolate_color (COLOR_RED k) (COLOR_YELLOW k) (d * 255 / 25)) /\
  (25 < d <= 50 ->
     _compute_display_levels k d
     = _interpolate_color (COLOR_YELLOW k) (COLOR_GREEN k)
         ((d - 25) * 255 / 25)) /\
  (50 < d <= 150 ->
     _compute_display_levels k d
     = _interpolate_color (COLOR_GREEN k) (COLOR_TURQUOISE k)
         ((d - 50) * 255 / 100)) /\
  (150 < d <= 175 ->
     _compute_display_levels k d
     = _interpolate_color (COLOR_TURQUOISE k) (COLOR_BLUE k)
         ((d - 150) * 255 / 25)) /\
  (forall lo hi d', lo <= d <= d' -> d' <= hi -> 0 < hi - lo <= 255 ->
     0 <= range_t d lo hi <= range_t d' lo hi /\ range_t d' lo hi <= 255).
Proof.
  unfold _compute_display_levels, DANGER_MIN_CM, WARNING_MIN_CM,
    NO_PROBLEM_MIN_CM, INFO_MIN_CM, OK_MIN_CM, OK_MAX_CM.
  repeat split.
  - intros Hd. cases_on_bounds.
    destruct (range_t_exact d 0 25) as [-> _]; [lia | lia |].
    rewrite Z.sub_0_r. reflexivity.
  - intros Hd. cases_on_bounds.
    destruct (range_t_exact d 25 50) as [-> _]; [lia | lia |]. reflexivity.
  - intros Hd. cases_on_bounds.
    destruct (range_t_exact d 50 150) as [-> _]; [lia | lia |]. reflexivity.
  - intros Hd. cases_on_bounds.
    destruct (range_t_exact d 150 175) as [-> _]; [lia | lia |]. reflexivity.
  - destruct (range_t_exact d lo hi) as [_ ?]; lia.
  - destruct (range_t_exact d lo hi) as [-> _]; [lia | lia |].
    destruct (range_t_exact d' lo hi) as [-> _]; [lia | lia |].
    apply Z.div_le_mono; lia.
  - destruct (range_t_exact d' lo hi) as [_ ?]; lia.
Qed.

Lemma graded_ranges_witness :
  _compute_display_levels Examples.palette 17
  = _interpolate_color (mk_rgb 255 0 0) (mk_rgb 94 94 0) (17 * 255 / 25).
Proof.
  apply (graded_ranges Examples.palette 17). lia.
Defined.

Lemma interpolate_color_valid c1 c2 t :
  rgb_valid c1 -> rgb_valid c2 -> 0 <= t <= 255 ->
  rgb_valid (_interpolate_color c1 c2 t).
Proof.
  intros (Hr1 & Hg1 & Hb1) (Hr2 & Hg2 & Hb2) Ht.
  unfold rgb_valid, is_u8 in *. cbn [_interpolate_color r g b].
  pose proof (interpolate_channel_exact (r c1) (r c2) t) as [_ Hr];
    [assumption .. |].
  pose proof (interpolate_channel_exact (g c1) (g c2) t) as [_ Hg];
    [assumption .. |].
  pose proof (interpolate_channel_exact (b c1) (b c2) t) as [_ Hb];
    [assumption .. |].
  lia.
Qed.

Lemma compute_display_levels_outside k d :
  d < 0 \/ 200 < d -> _compute_display_levels k d = COLOR_OFF k.
Proof.
  intros Hd. unfold _compute_display_levels, DANGER_MIN_CM, WARNING_MIN_CM,
    NO_PROBLEM_MIN_CM, INFO_MIN_CM, OK_MIN_CM, OK_MAX_CM.
  cases_on_bounds; reflexivity.
Qed.

(** X12: for a table of 8-bit colours every distance, in range or not,
    is rendered as an 8-bit colour; a negative distance (the initial -1
    included) or one above 200 cm is rendered OFF, and (175, 200] is
    solid BLUE. *)
Theorem display_levels_total k d :
  colours_valid k ->
  rgb_valid (_compute_display_levels k d) /\
  (d < 0 \/ 200 < d -> _compute_display_levels k d = COLOR_OFF k) /\
  (175 < d <= 200 -> _compute_display_levels k d = COLOR_BLUE k).
Proof.
  intros (Hred & Hyellow & Hgreen & Hturq & Hblue & Hoff).
  split; [| split].
  - unfold _compute_display_levels, DANGER_MIN_CM, WARNING_MIN_CM,
      NO_PROBLEM_MIN_CM, INFO_MIN_CM, OK_MIN_CM, OK_MAX_CM.
    cases_on_bounds; try assumption;
      apply interpolate_color_valid; try assumption;
      apply range_t_exact; lia.
  - apply compute_display_levels_outside.
  - intros Hd. unfold _compute_display_levels, DANGER_MIN_CM, WARNING_MIN_CM,
      NO_PROBLEM_MIN_CM, INFO_MIN_CM, OK_MIN_CM, OK_MAX_CM.
    cases_on_bounds. reflexivity.
Qed.

Lemma display_levels_total_witness :
  rgb_valid (_compute_display_levels Examples.palette 98) /\
  _compute_display_levels Examples.palette (-1) = mk_rgb 0 0 0.
Proof.
  destruct (display_levels_total Examples.palette 98 palette_valid)
    as (Hv & _).
  destruct (display_levels_total Examples.palette (-1) palette_valid)
    as (_ & Hoff & _).
  split; [exact Hv | apply Hoff; lia].
Defined.

(** X13: the [uint32_t] distance handed to the display comes back
    unchanged from [fsm_display_get_distance]; stored in the [int32_t]
    field it keeps its value below 2^31 and turns negative from 2^31
    on, where it is rendered OFF. *)
Theorem display_distance_round_trip k disp d :
  is_u32 d ->
  fsm_display_get_distance (fsm_display_set_distance disp d) = d /\
  (d < 2 ^ 31 -> distance_cm (fsm_display_set_distance disp d) = d) /\
  (2 ^ 31 <= d ->
     distance_cm (fsm_display_set_distance disp d) = d - 2 ^ 32 /\
     _compute_display_levels k (distance_cm (fsm_display_set_distance disp d))
     = COLOR_OFF k).
Proof.
  unfold is_u32. intros Hd.
  unfold fsm_display_get_distance. cbn [fsm_display_set_distance distance_cm].
  unfold to_int32. rewrite (wrap32_small d) by exact Hd.
  destruct (Z.ltb_spec d (2 ^ 31)) as [Hlt | Hge].
  - split; [apply wrap32_small; exact Hd |]. split; [reflexivity | lia].
  - split; [| split; [lia |]].
    + unfold wrap32. symmetry. apply (Z.mod_unique _ _ (-1)); lia.
    + intros _. split; [reflexivity |].
      apply compute_display_levels_outside. lia.
Qed.

Lemma display_distance_round_trip_witness :
  fsm_display_get_distance
    (fsm_display_set_distance Init.fsm_display_init 4294967295) = 4294967295.
Proof.
  apply (display_distance_round_trip Examples.palette Init.fsm_display_init
           4294967295).
  unfold is_u32. lia.
Defined.

(** *** PWM port *)

Lemma duty_exact c arr :
  0 <= c <= 255 -> 0 <= arr -> 255 * arr < 2 ^ 32 ->
  duty c arr = c * arr / 255 /\ 0 <= duty c arr <= arr /\
  (c = 255 -> duty c arr = arr).
Proof.
  intros Hc Ha Hw. unfold duty, PORT_DISPLAY_RGB_MAX_VALUE.
  rewrite wrap32_small by nia.
  split; [reflexivity |]. split.
  - split; [apply Z.div_pos; nia | apply Z.div_le_upper_bound; nia].
  - intros ->. rewrite Z.mul_comm. apply Z.div_mul. lia.
Qed.

(** X14: [port_display_set_rgb] on the rear display, for an 8-bit
    colour and a period whose 255-fold fits 32 bits: a channel is
    output iff its level is not 0; an output channel gets the duty
    floor(level * ARR / 255), which never exceeds the period and is the
    whole period at level 255; a channel at level 0 keeps its compare
    register; the counter runs iff the colour is not black; the period
    is left alone. *)
Theorem set_rgb_duty id t c :
  rgb_valid c -> 0 <= tim4_arr t -> 255 * tim4_arr t < 2 ^ 32 ->
  let t' := port_display_set_rgb id id t c in
  tim4_arr t' = tim4_arr t /\
  (cc1e t' = true <-> r c <> 0) /\
  (cc3e t' = true <-> g c <> 0) /\
  (cc4e t' = true <-> b c <> 0) /\
  (tim4_cen t' = true <-> ~ is_black c) /\
  (r c <> 0 -> ccr1 t' = r c * tim4_arr t / 255 /\ 0 <= ccr1 t' <= tim4_arr t) /\
  (g c <> 0 -> ccr3 t' = g c * tim4_arr t / 255 /\ 0 <= ccr3 t' <= tim4_arr t) /\
  (b c <> 0 -> ccr4 t' = b c * tim4_arr t / 255 /\ 0 <= ccr4 t' <= tim4_arr t) /\
  (r c = 0 -> ccr1 t' = ccr1 t) /\
  (g c = 0 -> ccr3 t' = ccr3 t) /\
  (b c = 0 -> ccr4 t' = ccr4 t) /\
  (r c = 255 -> ccr1 t' = tim4_arr t) /\
  (g c = 255 -> ccr3 t' = tim4_arr t) /\
  (b c = 255 -> ccr4 t' = tim4_arr t).
Proof.
  destruct c as [rv gv bv], t as [arr x1 x3 x4 e1 e3 e4 cen].
  unfold rgb_valid, is_u8, is_black. cbn [r g b tim4_arr].
  intros (Hr & Hg & Hb) Ha Hw.
  unfold port_display_set_rgb. rewrite Z.eqb_refl. cbn [negb r g b].
  rewrite !wrap8_small by lia.
  destruct (duty_exact rv arr) as (Er & Br & Fr); [lia | lia | lia |].
  destruct (duty_exact gv arr) as (Eg & Bg & Fg); [lia | lia | lia |].
  destruct (duty_exact bv arr) as (Eb & Bb & Fb); [lia | lia | lia |].
  destruct (Z.eqb_spec rv 0), (Z.eqb_spec gv 0), (Z.eqb_spec bv 0);
    cbn [andb negb tim4_arr ccr1 ccr3 ccr4 cc1e cc3e cc4e tim4_cen];
    repeat split; intros; subst;
    try reflexivity; try discriminate; try congruence; try lia;
    try (rewrite <- Er; lia); try (rewrite <- Eg; lia);
    try (rewrite <- Eb; lia); try tauto.
Qed.

Lemma set_rgb_duty_witness :
  ccr1 (port_display_set_rgb 0 0
          (_timer_pwm_config (mk_pwm 0 0 0 0 false false false false))
          (mk_rgb 255 94 0))
  = 63999.
Proof.
  apply (set_rgb_duty 0
           (_timer_pwm_config (mk_pwm 0 0 0 0 false false false false))
           (mk_rgb 255 94 0));
    [unfold rgb_valid, is_u8; cbn; lia | cbn; lia | cbn; lia | reflexivity].
Defined.

Lemma set_rgb_black rear id t c :
  is_black c -> id = rear -> pwm_dark (port_display_set_rgb rear id t c).
Proof.
  intros (Hr & Hg & Hb) ->. unfold port_display_set_rgb.
  rewrite Z.eqb_refl, Hr, Hg, Hb. repeat split.
Qed.

(** *** Display FSM *)

Ltac display_fire_in H :=
  unfold fsm_display_fire, fsm_trans_display;
  cbn [Fsm.fsm_fire Fsm.orig_state Fsm.guard Fsm.dest_state Fsm.action
       Fsm.run_action];
  rewrite H;
  repeat match goal with
         | |- context [bool_decide (?a = ?b)] =>
             let v := eval vm_compute in (bool_decide (a = b)) in
             change (bool_decide (a = b)) with v
         end;
  cbn [andb]; reflexivity.

Lemma fire_WAIT_DISPLAY rear k id st :
  get_state st = WAIT_DISPLAY ->
  fsm_display_fire rear k id st =
    if check_active st then set_state (do_set_on rear k id st) SET_DISPLAY
    else st.
Proof. intros H. display_fire_in H. Qed.

Lemma fire_SET_DISPLAY rear k id st :
  get_state st = SET_DISPLAY ->
  fsm_display_fire rear k id st =
    if check_set_new_color st
    then set_state (do_set_color rear k id st) SET_DISPLAY
    else if check_off st then set_state (do_set_off rear k id st) WAIT_DISPLAY
    else st.
Proof. intros H. display_fire_in H. Qed.

(** X15: a display FSM created with an identifier other than the rear
    display's never writes the PWM timer, whatever row fires, and never
    touches the status flag or the stored distance whatever its
    identifier. *)
Theorem display_fire_frame rear k id st :
  (id <> rear -> fst (fsm_display_fire rear k id st) = fst st) /\
  status (snd (fsm_display_fire rear k id st)) = status (snd st) /\
  distance_cm (snd (fsm_display_fire rear k id st)) = distance_cm (snd st).
Proof.
  assert (Hport : id <> rear ->
            forall t c, port_display_set_rgb rear id t c = t).
  { intros Hne t c. unfold port_display_set_rgb.
    destruct (Z.eqb_spec id rear); [contradiction | reflexivity]. }
  destruct st as [t [st0 d nc en idl]].
  destruct st0.
  - rewrite fire_WAIT_DISPLAY by reflexivity.
    destruct (check_active _); cbn; repeat split; auto.
  - rewrite fire_SET_DISPLAY by reflexivity.
    destruct (check_set_new_color _); [cbn; repeat split; auto |].
    destruct (check_off _); cbn; repeat split; auto.
Qed.

Lemma display_fire_frame_witness :
  fst (fsm_display_fire 0 Examples.palette 1
         (mk_pwm 63999 0 0 0 false false false false,
          mk_disp SET_DISPLAY 30 true true false))
  = mk_pwm 63999 0 0 0 false false false false.
Proof.
  apply (display_fire_frame 0 Examples.palette 1
           (mk_pwm 63999 0 0 0 false false false false,
            mk_disp SET_DISPLAY 30 true true false)).
  discriminate.
Defined.

(** X16: switching the display off takes at most two fires.  With the
    status flag cleared in SET_DISPLAY, a colour still pending is
    rendered first (the new-colour row precedes the off row); after the
    second fire the FSM is in WAIT_DISPLAY, not idle, reports no
    activity and, [COLOR_OFF] being black, every PWM output is disabled
    and the counter stopped. *)
Theorem display_off_within_two_fires rear k st :
  get_state st = SET_DISPLAY -> status (snd st) = false ->
  is_black (COLOR_OFF k) ->
  let st1 := fsm_display_fire rear k rear st in
  let st2 := fsm_display_fire rear k rear st1 in
  (new_color (snd st) = true ->
     st1 = set_state (do_set_color rear k rear st) SET_DISPLAY) /\
  get_state st2 = WAIT_DISPLAY /\
  pwm_dark (fst st2) /\
  idle (snd st2) = false /\ new_color (snd st2) = false /\
  fsm_display_check_activity (snd st2) = false.
Proof.
  intros Hst Hen Hoff st1 st2.
  destruct st as [t [st0 d nc en idl]].
  cbn [get_state snd current_state status new_color] in *. subst st0 en.
  assert (Hdark : forall t', pwm_dark (port_display_set_rgb rear rear t' (COLOR_OFF k)))
    by (intros t'; apply set_rgb_black; [exact Hoff | reflexivity]).
  subst st2 st1. destruct nc.
  - rewrite (fire_SET_DISPLAY rear k rear (t, _)) by reflexivity.
    cbn [check_set_new_color snd new_color].
    split; [intros _; reflexivity |].
    rewrite fire_SET_DISPLAY by reflexivity.
    cbn. repeat split; apply Hdark.
  - rewrite (fire_SET_DISPLAY rear k rear (t, _)) by reflexivity.
    cbn [check_set_new_color check_off snd new_color status negb].
    split; [discriminate |].
    rewrite fire_WAIT_DISPLAY by reflexivity.
    cbn. repeat split; apply Hdark.
Qed.

Lemma display_off_within_two_fires_witness :
  get_state
    (fsm_display_fire 0 Examples.palette 0
       (fsm_display_fire 0 Examples.palette 0
          (mk_pwm 63999 0 0 0 false false false false,
           mk_disp SET_DISPLAY 30 true false false)))
  = WAIT_DISPLAY.
Proof.
  apply (display_off_within_two_fires 0 Examples.palette
           (mk_pwm 63999 0 0 0 false false false false,
            mk_disp SET_DISPLAY 30 true false false));
    [reflexivity | reflexivity | repeat split].
Defined.

End DisplayFsmProofs.

(** ** The master FSM among its leaves *)

Module BoardProofs.
Import Urbanite Board UrbaniteProofs.

Lemma pause_guard_spec p :
  check_pause_display p = true <->
  0 < button_duration p /\ button_duration p < on_off_press_time_ms p /\
  pause_display_time_ms p <= button_duration p.
Proof.
  unfold check_pause_display, button_duration.
  rewrite !andb_true_iff, !Z.ltb_lt, Z.leb_le. tauto.
Qed.

Lemma off_guard_spec p :
  check_off p = true <->
  0 < button_duration p /\ on_off_press_time_ms p < button_duration p /\
  button_duration p < emergency_time_ms p.
Proof.
  unfold check_off, button_duration.
  rewrite !andb_true_iff, !Z.ltb_lt. tauto.
Qed.

Lemma emergency_guard_spec p :
  check_emergency_on p = true <->
  0 < button_duration p /\ emergency_time_ms p < button_duration p.
Proof.
  unfold check_emergency_on, button_duration.
  rewrite !andb_true_iff, !Z.ltb_lt. tauto.
Qed.

Lemma guard_false (b : bool) (P : Prop) : (b = true <-> P) -> ~ P -> b = false.
Proof. intros H Hn. destruct b; [exfalso; apply Hn, H; reflexivity | reflexivity]. Qed.

Lemma guard_true (b : bool) (P : Prop) : (b = true <-> P) -> P -> b = true.
Proof. intros H HP. apply H. exact HP. Qed.

(** X17: what a press does in MEASURE (button released, no sample
    pending, thresholds ordered pause <= on_off < emergency).  A press
    in [pause, on_off) toggles the pause and sets the display status to
    the opposite of the new pause flag; one in (on_off, emergency)
    powers off: ultrasound disabled with its three timers stopped and
    trigger line low, display disabled, pause cleared; one beyond
    emergency enters EMERGENCY; in all three cases the duration is
    reset.  Every other duration (below pause, exactly on_off, exactly
    emergency) leaves the whole record untouched. *)
Theorem measure_press_classification p :
  current_state p = MEASURE -> thresholds_ordered p ->
  check_new_measure p = false -> check_activity p = true ->
  let d := button_duration p in
  let q := fsm_urbanite_fire p in
  (0 < d -> pause_display_time_ms p <= d < on_off_press_time_ms p ->
     q = set_state (do_pause_display p) MEASURE /\
     is_paused q = negb (is_paused p) /\
     display_status q = is_paused p /\ button_duration q = 0) /\
  (on_off_press_time_ms p < d < emergency_time_ms p ->
     q = set_state (do_stop_urbanite p) OFF /\
     button_duration q = 0 /\ ultrasound_status q = false /\
     display_status q = false /\ is_paused q = false /\
     tim2_cen (ultrasound_hw q) = false /\ tim3_cen (ultrasound_hw q) = false /\
     tim5_cen (ultrasound_hw q) = false /\
     trigger_line (ultrasound_hw q) = false) /\
  (emergency_time_ms p < d ->
     current_state q = EMERGENCY /\ button_duration q = 0) /\
  (d <= 0 \/ d < pause_display_time_ms p \/ d = on_off_press_time_ms p \/
   d = emergency_time_ms p -> q = p).
Proof.
  intros Hst (Hp0 & Hpo & Hoe) Hnew Hact d q. subst d q.
  rewrite (fire_MEASURE p Hst), Hnew. unfold check_no_activity.
  rewrite Hact. cbn [negb].
  pose proof (pause_guard_spec p) as Gp.
  pose proof (off_guard_spec p) as Go.
  pose proof (emergency_guard_spec p) as Ge.
  repeat split.
  - rewrite (guard_true _ _ Gp) by lia. reflexivity.
  - rewrite (guard_true _ _ Gp) by lia. destruct p; reflexivity.
  - rewrite (guard_true _ _ Gp) by lia.
    destruct p as [? ? ? ? ? paused ? ? ? ? ?]. destruct paused; reflexivity.
  - rewrite (guard_true _ _ Gp) by lia. destruct p; reflexivity.
  - rewrite (guard_false _ _ Gp), (guard_false _ _ Ge), (guard_true _ _ Go)
      by lia. reflexivity.
  - rewrite (guard_false _ _ Gp), (guard_false _ _ Ge), (guard_true _ _ Go)
      by lia. destruct p; reflexivity.
  - rewrite (guard_false _ _ Gp), (guard_false _ _ Ge), (guard_true _ _ Go)
      by lia. destruct p; reflexivity.
  - rewrite (guard_false _ _ Gp), (guard_false _ _ Ge), (guard_true _ _ Go)
      by lia. destruct p; reflexivity.
  - rewrite (guard_false _ _ Gp), (guard_false _ _ Ge), (guard_true _ _ Go)
      by lia. destruct p; reflexivity.
  - rewrite (guard_false _ _ Gp), (guard_false _ _ Ge), (guard_true _ _ Go)
      by lia. destruct p; reflexivity.
  - rewrite (guard_false _ _ Gp), (guard_false _ _ Ge), (guard_true _ _ Go)
      by lia. destruct p; reflexivity.
  - rewrite (guard_false _ _ Gp), (guard_false _ _ Ge), (guard_true _ _ Go)
      by lia. destruct p; reflexivity.
  - rewrite (guard_false _ _ Gp), (guard_false _ _ Ge), (guard_true _ _ Go)
      by lia. destruct p; reflexivity.
  - rewrite (guard_false _ _ Gp), (guard_true _ _ Ge) by lia. reflexivity.
  - rewrite (guard_false _ _ Gp), (guard_true _ _ Ge) by lia.
    destruct p; reflexivity.
  - intros Hd.
    rewrite (guard_false _ _ Gp), (guard_false _ _ Ge), (guard_false _ _ Go)
      by lia. reflexivity.
Qed.

Lemma measure_press_classification_witness :
  fsm_urbanite_fire (Examples.measure_after_press 1500)
  = set_state (do_stop_urbanite (Examples.measure_after_press 1500)) OFF.
Proof.
  apply (measure_press_classification (Examples.measure_after_press 1500));
    [reflexivity | | reflexivity | reflexivity |].
  - unfold thresholds_ordered. vm_compute.
    repeat split; discriminate.
  - vm_compute. split; reflexivity.
Defined.

(** *** One press, one mode change *)

Lemma same_mode_refl s : same_mode s s.
Proof. split; reflexivity. Qed.

Lemma same_mode_dec s s' : same_mode s s' \/ ~ same_mode s s'.
Proof.
  unfold same_mode.
  destruct (bool_decide (is_off s = is_off s')) eqn:H1;
    destruct (bool_decide (is_on s = is_on s')) eqn:H2;
    try apply bool_decide_eq_true in H1; try apply bool_decide_eq_true in H2;
    try apply bool_decide_eq_false in H1; try apply bool_decide_eq_false in H2;
    tauto.
Qed.

Ltac guards_of p :=
  repeat match goal with
         | |- context [if ?g p then _ else _] => destruct (g p) eqn:?
         end.

(** Without a press guard, fire keeps the mode and the pause flag. *)
Lemma quiet_fire_keeps_mode p :
  no_press_guard p ->
  same_mode (current_state p) (current_state (fsm_urbanite_fire p)) /\
  is_paused (fsm_urbanite_fire p) = is_paused p.
Proof.
  intros (Hon & Hoff & Hpause & Heon & Heoff).
  destruct (current_state p) eqn:Hst.
  - rewrite (fire_OFF p Hst), Hon.
    destruct (check_no_activity p); cbn; rewrite ?Hst; (split; [split; reflexivity | reflexivity]).
  - rewrite (fire_MEASURE p Hst), Hpause, Heon, Hoff.
    destruct (check_new_measure p).
    + split; [split; reflexivity |].
      destruct p as [? ? ? ? ? paused ? ? us ? ?]. unfold do_display_distance.
      cbn. destruct paused; [| reflexivity].
      destruct (_ <? _); reflexivity.
    + destruct (check_no_activity p); cbn; rewrite ?Hst; (split; [split; reflexivity | reflexivity]).
  - rewrite (fire_SLEEP_WHILE_OFF p Hst).
    destruct (check_activity p); [split; [split; reflexivity | reflexivity] |].
    destruct (check_no_activity p); cbn; rewrite ?Hst; (split; [split; reflexivity | reflexivity]).
  - rewrite (fire_SLEEP_WHILE_ON p Hst).
    destruct (check_activity_in_measure p);
      [split; [split; reflexivity | reflexivity] |].
    destruct (check_no_activity p); cbn; rewrite ?Hst; (split; [split; reflexivity | reflexivity]).
  - rewrite (fire_EMERGENCY p Hst), Heoff.
    destruct (check_emergency_continue p); cbn; rewrite ?Hst.
    + split; [split; reflexivity |]. destruct p as [? ? ? ? ? ? aux ? ? ? ?].
      unfold do_continue_emergency. cbn. destruct aux; reflexivity.
    + split; [split; reflexivity | reflexivity].
Qed.

(** The five actions that react to a press reset the duration, after
    which no press guard holds. *)
Lemma press_actions_consume p s :
  let consumed q := button_duration q = 0 /\ no_press_guard q in
  consumed (set_state (do_start_up_measure p) s) /\
  consumed (set_state (do_pause_display p) s) /\
  consumed (set_state (do_start_emergency p) s) /\
  consumed (set_state (do_stop_emergency p) s) /\
  consumed (set_state (do_stop_urbanite p) s).
Proof.
  destruct p as [? ? ? ? ? paused ? ? ? ? ?].
  repeat split; try (destruct paused; reflexivity).
Qed.

(** X18: one press, one mode change.  A fire that changes the mode
    (off, on, emergency) or the pause flag resets the press duration
    and leaves no press guard enabled; a fire with no press guard
    enabled keeps mode and pause flag; hence two successive fires never
    both change the mode. *)
Theorem press_is_consumed p :
  let q := fsm_urbanite_fire p in
  (~ same_mode (current_state p) (current_state q) \/
   is_paused q <> is_paused p ->
     button_duration q = 0 /\ no_press_guard q) /\
  (no_press_guard p ->
     same_mode (current_state p) (current_state q) /\
     is_paused q = is_paused p) /\
  (same_mode (current_state p) (current_state q) \/
   same_mode (current_state q) (current_state (fsm_urbanite_fire q))).
Proof.
  intros q.
  assert (Hconsumed :
    ~ same_mode (current_state p) (current_state q) \/
    is_paused q <> is_paused p ->
    button_duration q = 0 /\ no_press_guard q).
  { subst q. intros Hchg.
    pose proof (press_actions_consume p) as Hall.
    assert (Hkeep : forall q',
      same_mode (current_state p) (current_state q') ->
      is_paused q' = is_paused p ->
      fsm_urbanite_fire p = q' -> button_duration q' = 0 /\ no_press_guard q').
    { intros q' Hm Hp Hq. rewrite Hq in Hchg. tauto. }
    destruct (current_state p) eqn:Hst.
    - rewrite (fire_OFF p Hst) in *.
      destruct (check_no_activity p).
      + apply Hkeep; [split; reflexivity | reflexivity | reflexivity].
      + destruct (check_on p).
        * apply (Hall MEASURE).
        * apply Hkeep; [rewrite Hst; split; reflexivity | reflexivity
                        | reflexivity].
    - rewrite (fire_MEASURE p Hst) in *.
      destruct (check_pause_display p); [apply (Hall MEASURE) |].
      destruct (check_new_measure p).
      { apply Hkeep; [split; reflexivity | | reflexivity].
        destruct p as [? ? ? ? ? paused ? ? us ? ?]. unfold do_display_distance.
        cbn. destruct paused; [| reflexivity].
        destruct (_ <? _); reflexivity. }
      destruct (check_no_activity p).
      { apply Hkeep; [split; reflexivity | reflexivity | reflexivity]. }
      destruct (check_emergency_on p).
      { apply (Hall EMERGENCY). }
      destruct (check_off p).
      { apply (Hall OFF). }
      apply Hkeep; [rewrite Hst; split; reflexivity | reflexivity | reflexivity].
    - rewrite (fire_SLEEP_WHILE_OFF p Hst) in *.
      destruct (check_activity p);
        [apply Hkeep; [split; reflexivity | reflexivity | reflexivity] |].
      destruct (check_no_activity p);
        (apply Hkeep; [rewrite ?Hst; split; reflexivity | reflexivity
                       | reflexivity]).
    - rewrite (fire_SLEEP_WHILE_ON p Hst) in *.
      destruct (check_activity_in_measure p);
        [apply Hkeep; [split; reflexivity | reflexivity | reflexivity] |].
      destruct (check_no_activity p);
        (apply Hkeep; [rewrite ?Hst; split; reflexivity | reflexivity
                       | reflexivity]).
    - rewrite (fire_EMERGENCY p Hst) in *.
      destruct (check_emergency_off p).
      { apply (Hall MEASURE). }
      destruct (check_emergency_continue p).
      + apply Hkeep; [split; reflexivity | | reflexivity].
        destruct p as [? ? ? ? ? ? aux ? ? ? ?].
        unfold do_continue_emergency. cbn. destruct aux; reflexivity.
      + apply Hkeep; [rewrite Hst; split; reflexivity | reflexivity
                      | reflexivity]. }
  split; [exact Hconsumed |].
  split; [apply quiet_fire_keeps_mode |].
  destruct (same_mode_dec (current_state p) (current_state q)) as [Hs | Hn];
    [left; exact Hs | right].
  apply quiet_fire_keeps_mode. apply Hconsumed. left. exact Hn.
Qed.

Lemma press_is_consumed_witness :
  button_duration (fsm_urbanite_fire (Examples.off_after_press 1200)) = 0.
Proof.
  apply (press_is_consumed (Examples.off_after_press 1200)).
  left. vm_compute. intros [H _]. discriminate H.
Defined.

(** X19: the arrows of the master FSM.  From each state a fire can only
    reach the states the table names for it: in particular EMERGENCY is
    entered from MEASURE only, never from a sleep state or OFF, and a
    sleep state is left only for its own active state. *)
Theorem fire_follows_table p :
  allowed (current_state p) (current_state (fsm_urbanite_fire p)) = true /\
  (current_state (fsm_urbanite_fire p) = EMERGENCY ->
     current_state p = MEASURE \/ current_state p = EMERGENCY).
Proof.
  assert (H : allowed (current_state p)
                (current_state (fsm_urbanite_fire p)) = true).
  { destruct (current_state p) eqn:Hst.
    - rewrite (fire_OFF p Hst). guards_of p; cbn; rewrite ?Hst; reflexivity.
    - rewrite (fire_MEASURE p Hst). guards_of p; cbn; rewrite ?Hst; reflexivity.
    - rewrite (fire_SLEEP_WHILE_OFF p Hst).
      guards_of p; cbn; rewrite ?Hst; reflexivity.
    - rewrite (fire_SLEEP_WHILE_ON p Hst).
      guards_of p; cbn; rewrite ?Hst; reflexivity.
    - rewrite (fire_EMERGENCY p Hst).
      guards_of p; cbn; rewrite ?Hst; reflexivity. }
  split; [exact H |].
  intros He. rewrite He in H.
  destruct (current_state p); try discriminate H; auto.
Qed.

Lemma fire_follows_table_witness :
  current_state Examples.asleep_on_button_down = MEASURE \/
  current_state Examples.asleep_on_button_down = EMERGENCY \/
  current_state (fsm_urbanite_fire Examples.asleep_on_button_down) <> EMERGENCY.
Proof.
  destruct (fire_follows_table Examples.asleep_on_button_down) as [_ H].
  right. right. intros He. destruct (H He) as [Hm | Hm]; discriminate Hm.
Defined.

(** *** Emergency flashing *)

(** X20: in EMERGENCY, as long as no press longer than
    [emergency_ms] arrives, every fire hands the display a new colour
    and the two colours alternate: distance 0, rendered RED, when the
    phase flag is set, and distance 500, rendered OFF, when it is not;
    two fires bring the phase flag back. *)
Theorem emergency_flash p k :
  current_state p = EMERGENCY -> emergency p = true ->
  check_emergency_off p = false -> Display.colours_valid k ->
  let q1 := fsm_urbanite_fire p in
  let q2 := fsm_urbanite_fire q1 in
  let shown q :=
    Display._compute_display_levels k
      (Display.distance_cm (p_fsm_display_rear q)) in
  current_state q2 = EMERGENCY /\
  emergency_aux q1 = negb (emergency_aux p) /\
  emergency_aux q2 = emergency_aux p /\
  Display.new_color (p_fsm_display_rear q1) = true /\
  Display.new_color (p_fsm_display_rear q2) = true /\
  (emergency_aux p = true ->
     shown q1 = Display.COLOR_RED k /\ shown q2 = Display.COLOR_OFF k) /\
  (emergency_aux p = false ->
     shown q1 = Display.COLOR_OFF k /\ shown q2 = Display.COLOR_RED k).
Proof.
  intros Hst Hem Hoff (Hred & _) q1 q2 shown.
  assert (H1 : q1 = set_state (do_continue_emergency p) EMERGENCY).
  { subst q1. rewrite (fire_EMERGENCY p Hst), Hoff.
    unfold check_emergency_continue. rewrite Hem. reflexivity. }
  assert (H2 : q2 = set_state (do_continue_emergency q1) EMERGENCY).
  { subst q2. rewrite (fire_EMERGENCY q1) by (rewrite H1; reflexivity).
    replace (check_emergency_off q1) with (check_emergency_off p).
    - rewrite Hoff. unfold check_emergency_continue.
      replace (emergency q1) with (emergency p); [rewrite Hem; reflexivity |].
      rewrite H1. destruct p as [? ? ? ? ? ? aux ? ? ? ?].
      unfold do_continue_emergency. cbn. destruct aux; reflexivity.
    - rewrite H1. destruct p as [? ? ? ? ? ? aux ? ? ? ?].
      unfold do_continue_emergency. cbn. destruct aux; reflexivity. }
  assert (Hr : Display._compute_display_levels k 0 = Display.COLOR_RED k).
  { change (Display._compute_display_levels k 0)
      with (Display._interpolate_color (Display.COLOR_RED k)
              (Display.COLOR_YELLOW k) 0).
    apply DisplayProofs.interpolate_color_0. exact Hred. }
  assert (Ho : Display._compute_display_levels k 500 = Display.COLOR_OFF k).
  { apply DisplayFsmProofs.compute_display_levels_outside. lia. }
  subst shown. cbv beta. rewrite H2, H1.
  destruct p as [? ? ? ? ? ? aux ? ? ? ?].
  unfold do_continue_emergency.
  destruct aux; cbn; repeat split; intros; try discriminate;
    first [exact Hr | exact Ho].
Qed.

Lemma emergency_flash_witness :
  Display._compute_display_levels Examples.palette
    (Display.distance_cm
       (p_fsm_display_rear (fsm_urbanite_fire Examples.in_emergency)))
  = Display.mk_rgb 255 0 0.
Proof.
  apply (emergency_flash Examples.in_emergency Examples.palette);
    [reflexivity | reflexivity | reflexivity | | reflexivity].
  unfold Display.colours_valid, Display.rgb_valid, is_u8. cbn. lia.
Defined.

(** *** From five echoes to a colour *)

(** X21: the measurement pipeline end to end.  In MEASURE, not paused,
    with no pause-length press pending, five captures completing a
    window make the next fire of the master FSM consume the sample
    (the new-measurement flag is cleared) and the next fire of the
    display FSM write to the PWM the colour of the median of the five
    raw distances, after which the display reports no activity. *)
Theorem five_echoes_to_colour p rear k t c1 c2 c3 c4 c5 :
  current_state p = MEASURE -> is_paused p = false ->
  check_pause_display p = false ->
  Ultrasound.distance_idx (p_fsm_ultrasound_rear p) = 0 ->
  length (Ultrasound.distance_arr (p_fsm_ultrasound_rear p)) = 5%nat ->
  Display.current_state (p_fsm_display_rear p) = Display.SET_DISPLAY ->
  let cs := [c1; c2; c3; c4; c5] in
  let p1 := with_ultrasound p (Ultrasound.feed (ultrasound_of p) cs) in
  let p2 := fsm_urbanite_fire p1 in
  let st := DisplayFsm.fsm_display_fire rear k rear
              (t, p_fsm_display_rear p2) in
  exists m,
    Spec.is_median m (map Ultrasound.raw_of cs) /\
    fst st = DisplayFsm.port_display_set_rgb rear rear t
               (Display._compute_display_levels k m) /\
    check_new_measure p2 = false /\
    Display.new_color (snd st) = false /\
    Display.fsm_display_check_activity (snd st) = false.
Proof.
  intros Hst Hpaused Hpause Hidx Hlen Hdisp. cbv zeta.
  destruct p as [s0 bt t1 t2 t3 paused aux em us disp hw].
  cbn [current_state is_paused p_fsm_ultrasound_rear p_fsm_display_rear] in *.
  subst s0 paused. destruct disp as [ds dd dn den didle].
  cbn [Display.current_state] in Hdisp. subst ds.
  pose proof (UltrasoundFsmProofs.window_median hw us c1 c2 c3 c4 c5 Hidx Hlen)
    as Hmed.
  pose proof (UltrasoundFsmProofs.feed_window hw us c1 c2 c3 c4 c5 Hidx Hlen)
    as Hfeed.
  cbv zeta in Hfeed. rewrite Hfeed in Hmed. cbn [Ultrasound.distance_cm] in Hmed.
  set (raws := map Ultrasound.raw_of [c1; c2; c3; c4; c5]) in *.
  set (m := Ultrasound.aget (Ultrasound.qsort Ultrasound._compare raws) 2) in *.
  exists m. split; [exact Hmed |].
  assert (Hm : to_int32 m = m).
  { apply WordFacts.to_int32_small.
    destruct Hmed as (Hin & _).
    assert (Hall : Forall Spec.small raws)
      by (repeat constructor; apply MedianProofs.raw_of_small).
    rewrite Forall_forall in Hall. apply Hall. exact Hin. }
  unfold ultrasound_of.
  cbn [ultrasound_hw p_fsm_ultrasound_rear]. unfold with_ultrasound.
  cbn [current_state p_fsm_button on_off_press_time_ms pause_display_time_ms
       emergency_time_ms is_paused emergency_aux emergency
       p_fsm_display_rear].
  rewrite Hfeed.
  rewrite fire_MEASURE_new_sample; [| reflexivity | exact Hpause | reflexivity].
  unfold do_display_distance, Ultrasound.fsm_ultrasound_get_distance.
  cbn [with_ultrasound is_paused p_fsm_ultrasound_rear p_fsm_display_rear
       ultrasound_hw snd fst set_state set_display_distance with_display
       Display.fsm_display_set_distance Display.current_state Display.status
       Display.idle Ultrasound.distance_cm Ultrasound.current_state
       Ultrasound.status Ultrasound.distance_arr Ultrasound.distance_idx].
  unfold Display.fsm_display_set_distance.
  cbn [Display.current_state Display.status Display.idle].
  rewrite Hm.
  rewrite DisplayFsmProofs.fire_SET_DISPLAY by reflexivity.
  unfold DisplayFsm.check_set_new_color, DisplayFsm.do_set_color,
    DisplayFsm.set_state, check_new_measure,
    Ultrasound.fsm_ultrasound_get_new_measurement_ready,
    Display.fsm_display_check_activity, set_display_distance, with_display,
    with_ultrasound.
  cbn [fst snd Display.new_color Display.distance_cm Display.status
       Display.idle Display.current_state set_state p_fsm_ultrasound_rear
       Ultrasound.new_measurement negb andb].
  repeat split. destruct den; reflexivity.
Qed.

Lemma five_echoes_to_colour_witness :
  exists m,
    Spec.is_median m (map Ultrasound.raw_of Examples.five_captures) /\
    fst (DisplayFsm.fsm_display_fire 0 Examples.palette 0
           (DisplayFsm.mk_pwm 63999 0 0 0 false false false false,
            p_fsm_display_rear
              (fsm_urbanite_fire
                 (with_ultrasound Examples.armed_quiet
                    (Ultrasound.feed (ultrasound_of Examples.armed_quiet)
                       Examples.five_captures)))))
    = DisplayFsm.port_display_set_rgb 0 0
        (DisplayFsm.mk_pwm 63999 0 0 0 false false false false)
        (Display._compute_display_levels Examples.palette m).
Proof.
  destruct (five_echoes_to_colour Examples.armed_quiet 0 Examples.palette
              (DisplayFsm.mk_pwm 63999 0 0 0 false false false false)
              (mk_capture 100 1849 0) (mk_capture 100 1733 0)
              (mk_capture 100 11760 0) (mk_capture 65000 1155 1)
              (mk_capture 100 1908 0))
    as (m & Hmed & Hpwm & _);
    [reflexivity | reflexivity | reflexivity | reflexivity | reflexivity
     | reflexivity |].
  exists m. split; [exact Hmed | exact Hpwm].
Defined.

(** *** Power on with a sample left over *)

(** X23: [fsm_ultrasound_start] resets the published distance to 0 but
    leaves the new-measurement flag alone.  If the flag was still set
    when the system is powered on (OFF, press longer than [on_off_ms],
    not paused), the fire after the power-on consumes it and hands the
    display the distance 0, rendered RED, although no window has been
    measured since the start. *)
Theorem power_on_with_stale_sample p k :
  current_state p = OFF -> check_activity p = true -> check_on p = true ->
  is_paused p = false ->
  Ultrasound.new_measurement (p_fsm_ultrasound_rear p) = true ->
  Display.colours_valid k ->
  let q1 := fsm_urbanite_fire p in
  let q2 := fsm_urbanite_fire q1 in
  current_state q1 = MEASURE /\
  Ultrasound.distance_idx (p_fsm_ultrasound_rear q1) = 0 /\
  check_new_measure q1 = true /\
  q2 = set_state (do_display_distance q1) MEASURE /\
  Display.distance_cm (p_fsm_display_rear q2) = 0 /\
  Display.new_color (p_fsm_display_rear q2) = true /\
  Display._compute_display_levels k
    (Display.distance_cm (p_fsm_display_rear q2)) = Display.COLOR_RED k /\
  check_new_measure q2 = false.
Proof.
  intros Hst Hact Hon Hpaused Hnew (Hred & _) q1 q2.
  assert (H1 : q1 = set_state (do_start_up_measure p) MEASURE).
  { subst q1. rewrite (fire_OFF p Hst). unfold check_no_activity.
    rewrite Hact, Hon. reflexivity. }
  assert (Hnew1 : check_new_measure q1 = true).
  { rewrite H1. destruct p as [? ? ? ? ? ? ? ? us ? ?].
    destruct us. exact Hnew. }
  assert (H2 : q2 = set_state (do_display_distance q1) MEASURE).
  { subst q2. apply fire_MEASURE_new_sample.
    - rewrite H1. reflexivity.
    - rewrite H1. destruct p. reflexivity.
    - exact Hnew1. }
  assert (Hr : Display._compute_display_levels k 0 = Display.COLOR_RED k).
  { change (Display._compute_display_levels k 0)
      with (Display._interpolate_color (Display.COLOR_RED k)
              (Display.COLOR_YELLOW k) 0).
    apply DisplayProofs.interpolate_color_0. exact Hred. }
  split; [rewrite H1; reflexivity |].
  split; [rewrite H1; destruct p as [? ? ? ? ? ? ? ? us ? ?];
          destruct us; reflexivity |].
  split; [exact Hnew1 |]. split; [exact H2 |].
  rewrite H2, H1.
  destruct p as [s0 bt t1 t2 t3 paused aux em us disp hw].
  cbn [is_paused] in Hpaused. subst paused.
  destruct us as [u0 ud uen unm uarr uidx]. repeat split. exact Hr.
Qed.

Lemma power_on_with_stale_sample_witness :
  Display.distance_cm
    (p_fsm_display_rear
       (fsm_urbanite_fire
          (fsm_urbanite_fire
             (with_ultrasound (Examples.off_after_press 1200)
                (Init.port_ultrasound_init,
                 Ultrasound.mk_us Ultrasound.SET_DISTANCE 30 false true
                   [28; 29; 30; 31; 200] 0)))))
  = 0.
Proof.
  apply (power_on_with_stale_sample
           (with_ultrasound (Examples.off_after_press 1200)
              (Init.port_ultrasound_init,
               Ultrasound.mk_us Ultrasound.SET_DISTANCE 30 false true
                 [28; 29; 30; 31; 200] 0))
           Examples.palette);
    [reflexivity | reflexivity | reflexivity | reflexivity | reflexivity |].
  unfold Display.colours_valid, Display.rgb_valid, is_u8. cbn. lia.
Defined.

(** *** Mode flags over every run *)

Lemma mode_inv_init : mode_inv Init.fsm_urbanite_init.
Proof.
  unfold mode_inv. split; [| split; [| split; [| split]]].
  - split; discriminate.
  - intros _. repeat split.
  - discriminate.
  - discriminate.
  - apply UltrasoundFsmProofs.ring_inv_init.
Qed.

Ltac split_mode_inv :=
  unfold mode_inv, ultrasound_status, display_status,
    Display.fsm_display_get_status;
  cbn [current_state is_paused emergency emergency_aux p_fsm_ultrasound_rear
       p_fsm_display_rear p_fsm_button is_off is_on set_state with_ultrasound
       with_display
       with_button with_is_paused with_emergency with_emergency_aux
       reset_button set_display_status set_display_distance fst snd
       Display.fsm_display_set_status Display.fsm_display_set_distance
       Display.status Ultrasound.status Ultrasound.fsm_ultrasound_start
       Ultrasound.fsm_ultrasound_stop Ultrasound.fsm_ultrasound_get_distance
       Ultrasound.current_state Ultrasound.distance_cm
       Ultrasound.new_measurement Ultrasound.distance_arr
       Ultrasound.distance_idx ultrasound_of ultrasound_hw negb].

Ltac flags_ok :=
  intros; repeat split; intros; try congruence; try reflexivity; auto.

Ltac mode_inv_ok :=
  split_mode_inv;
  split; [flags_ok | split; [flags_ok | split; [flags_ok | split;
    [flags_ok | assumption]]]].

Lemma fire_mode_inv p : mode_inv p -> mode_inv (fsm_urbanite_fire p).
Proof.
  intros Hinv.
  destruct p as [s0 bt t1 t2 t3 paused aux em us disp hw].
  destruct Hinv as (He & Hoff & Hon & Hem & Hring).
  unfold ultrasound_status, display_status, Display.fsm_display_get_status in *.
  cbn [current_state is_paused emergency p_fsm_ultrasound_rear
       p_fsm_display_rear] in *.
  assert (Hstart := UltrasoundFsmProofs.start_ring hw us Hring).
  assert (Hstop := UltrasoundFsmProofs.stop_ring hw us Hring).
  assert (Hget := UltrasoundFsmProofs.get_distance_ring us Hring).
  destruct us as [u0 ud uen unm uarr uidx], disp as [ds dd dn den didle].
  cbn [Ultrasound.fsm_ultrasound_start Ultrasound.fsm_ultrasound_stop
       Ultrasound.fsm_ultrasound_get_distance snd Ultrasound.current_state
       Ultrasound.distance_cm Ultrasound.status Ultrasound.new_measurement
       Ultrasound.distance_arr Ultrasound.distance_idx Display.status] in *.
  assert (Hem' : s0 <> EMERGENCY -> em = false).
  { intros Hne. destruct em; [| reflexivity].
    exfalso. apply Hne, He. reflexivity. }
  destruct s0; cbn [is_off is_on] in Hoff, Hon;
    try (destruct (Hoff eq_refl) as (-> & -> & ->));
    try (destruct (Hon eq_refl) as (-> & Hdisp));
    try (destruct (Hem eq_refl) as (-> & ->));
    try (assert (em = false) as -> by (apply Hem'; discriminate));
    try (assert (em = true) as -> by (apply He; reflexivity));
    clear He Hoff Hon Hem Hem'.
  - (* OFF *)
    rewrite fire_OFF by reflexivity.
    destruct (check_no_activity _); [| destruct (check_on _)];
      unfold do_sleep_off, do_start_up_measure; mode_inv_ok.
  - (* MEASURE *)
    rewrite fire_MEASURE by reflexivity.
    destruct (check_pause_display _).
    { unfold do_pause_display. destruct paused; mode_inv_ok. }
    destruct (check_new_measure _).
    { unfold do_display_distance, Ultrasound.fsm_ultrasound_get_distance.
      cbn [with_ultrasound is_paused p_fsm_ultrasound_rear].
      destruct paused; [destruct (_ <? _) |]; mode_inv_ok. }
    destruct (check_no_activity _).
    { unfold do_sleep_while_measure. mode_inv_ok. }
    destruct (check_emergency_on _).
    { unfold do_start_emergency. mode_inv_ok. }
    destruct (check_off _).
    { unfold do_stop_urbanite. mode_inv_ok. }
    mode_inv_ok.
  - (* SLEEP_WHILE_OFF *)
    rewrite fire_SLEEP_WHILE_OFF by reflexivity.
    destruct (check_activity _); [| destruct (check_no_activity _)];
      unfold do_sleep_while_off; mode_inv_ok.
  - (* SLEEP_WHILE_ON *)
    rewrite fire_SLEEP_WHILE_ON by reflexivity.
    destruct (check_activity_in_measure _); [| destruct (check_no_activity _)];
      unfold do_sleep_while_on; mode_inv_ok.
  - (* EMERGENCY *)
    rewrite fire_EMERGENCY by reflexivity.
    destruct (check_emergency_off _).
    { unfold do_stop_emergency.
      cbn [reset_button with_ultrasound with_button is_paused].
      destruct paused; mode_inv_ok. }
    destruct (check_emergency_continue _).
    { unfold do_continue_emergency. cbn [emergency_aux].
      destruct aux; mode_inv_ok. }
    mode_inv_ok.
Qed.

Lemma display_fire_keeps_status rear k id st :
  Display.status (snd (DisplayFsm.fsm_display_fire rear k id st))
  = Display.status (snd st).
Proof.
  destruct st as [t [st0 d nc en idl]]. destruct st0.
  - rewrite DisplayFsmProofs.fire_WAIT_DISPLAY by reflexivity.
    destruct (DisplayFsm.check_active _); reflexivity.
  - rewrite DisplayFsmProofs.fire_SET_DISPLAY by reflexivity.
    destruct (DisplayFsm.check_set_new_color _); [reflexivity |].
    destruct (DisplayFsm.check_off _); reflexivity.
Qed.

Lemma step_mode_inv p q : step p q -> mode_inv p -> mode_inv q.
Proof.
  intros Hstep Hinv. destruct Hstep.
  - apply fire_mode_inv. exact Hinv.
  - destruct Hinv as (He & Hoff & Hon & Hem & Hring).
    pose proof (UltrasoundFsmProofs.fire_keeps_status (ultrasound_of p)) as Hs.
    pose proof (UltrasoundFsmProofs.fire_ring (ultrasound_hw p)
                  (p_fsm_ultrasound_rear p) Hring) as Hr.
    destruct p. unfold mode_inv, ultrasound_status, display_status in *.
    cbn [with_ultrasound current_state is_paused emergency
         p_fsm_ultrasound_rear p_fsm_display_rear ultrasound_of
         ultrasound_hw] in *.
    rewrite Hs. cbn [snd]. auto.
  - destruct p; exact Hinv.
  - destruct p; exact Hinv.
  - destruct p; exact Hinv.
  - destruct Hinv as (He & Hoff & Hon & Hem & Hring).
    pose proof (display_fire_keeps_status rear_id k id
                  (t, p_fsm_display_rear p)) as Hs.
    destruct p. unfold mode_inv, ultrasound_status, display_status,
      Display.fsm_display_get_status in *.
    cbn [with_display current_state is_paused emergency
         p_fsm_ultrasound_rear p_fsm_display_rear snd] in *.
    rewrite Hs. auto.
  - destruct p; exact Hinv.
Qed.

(** X22: what holds of every run.  Starting from the initial records
    and under any interleaving of fires of the master, ultrasound and
    display FSMs, timer interrupts and button changes: the emergency
    flag is set exactly in EMERGENCY; in OFF and SLEEP_WHILE_OFF the
    sensor and the display are disabled and the pause is cleared; in
    MEASURE and SLEEP_WHILE_ON the sensor is enabled and the display is
    enabled unless paused; in EMERGENCY the sensor is disabled and the
    display enabled; and the sample ring keeps its invariant. *)
Theorem reachable_mode_inv p : reachable p -> mode_inv p.
Proof.
  induction 1 as [| p q _ IH Hstep].
  - exact mode_inv_init.
  - exact (step_mode_inv p q Hstep IH).
Qed.

Lemma reachable_armed : reachable Examples.armed.
Proof.
  unfold Examples.armed, Examples.off_after_press.
  eapply reachable_step; [| apply step_urbanite].
  eapply reachable_step; [apply reachable_init | apply step_button].
Qed.

Lemma reachable_mode_inv_witness :
  ultrasound_status Examples.armed = true.
Proof.
  destruct (reachable_mode_inv Examples.armed reachable_armed)
    as (_ & _ & Hon & _).
  destruct (Hon eq_refl) as [Hs _]. exact Hs.
Defined.

End BoardProofs.
